(** * Template helpers of sentry: number, duration, relative-time and text filters

    A shallow embedding of the formatting filters of
    [src/sentry/templatetags/sentry_helpers.py]:
    [pprint], [small_count], [timesince], [duration] and [percent].

    The source is Python 2: [/] between an int and a float is float division,
    [%] on floats is the C [fmod] with the sign of the divisor, ['%d' % x]
    truncates a float toward zero, and ['%.Nf' % x] rounds the exact binary
    value half-to-even.  Floats are IEEE 754 binary64 values, modelled by
    [spec_float] with the operations of [SpecFloat] at precision 53. *)

From Stdlib Require Import ZArith List String Ascii Bool Lia QArith Qround.
From Stdlib Require Import Floats.SpecFloat.
From Stdlib Require Import Permutation Sorted.
Import ListNotations.

Local Open Scope Z_scope.

(** ** Exceptions *)

Inductive exn : Type :=
| TypeError
| ValueError
| OverflowError
| ZeroDivisionError.

Inductive result (A : Type) : Type :=
| Ok (a : A)
| Raise (e : exn).

Arguments Ok {A} _.
Arguments Raise {A} _.

Definition bind {A B : Type} (c : result A) (k : A -> result B) : result B :=
  match c with
  | Ok a => k a
  | Raise e => Raise e
  end.

Notation "x <- c ;; k" := (bind c (fun x => k))
  (at level 61, c at next level, right associativity).

(** ** Values *)

(** What the number filters receive from a template: [None], an int (Python 2
    ints and longs are unbounded) or a float. *)
Inductive pynum : Type :=
| NNone
| NInt (z : Z)
| NFloat (f : spec_float).

Record date : Type := mkdate { year : Z; month : Z; day : Z }.

(** What the filters hand back to the template. *)
Inductive pyval : Type :=
| VInt (z : Z)
| VStr (s : string)
| VDate (d : date).

(** ** Binary64 arithmetic *)

Definition prec : Z := 53.
Definition emax : Z := 1024.

Definition fdiv : spec_float -> spec_float -> spec_float := SFdiv prec emax.
Definition fmul : spec_float -> spec_float -> spec_float := SFmul prec emax.
Definition fadd : spec_float -> spec_float -> spec_float := SFadd prec emax.

(** [x > y] and [x < y] on floats: false as soon as one side is a NaN. *)
Definition fgt (x y : spec_float) : bool := SFltb y x.
Definition flt (x y : spec_float) : bool := SFltb x y.

Definition is_zero (f : spec_float) : bool :=
  match f with
  | S754_zero _ => true
  | _ => false
  end.

(** The first magnitude that no longer rounds to a finite double:
    [2^1024 - 2^970]. *)
Definition float_overflow_bound : Z := 2 ^ 1024 - 2 ^ 970.

(** [float(z)]: the nearest double, ties to even; an int too large for a
    double raises [OverflowError]. *)
Definition float_of_int (z : Z) : result spec_float :=
  if Z.abs z <? float_overflow_bound
  then Ok (binary_normalize prec emax z 0 false)
  else Raise OverflowError.

(** A literal such as [1000.0] or an int constant compared with a float. *)
Definition flit (z : Z) : spec_float := binary_normalize prec emax z 0 false.

(** [int(f)]: truncation toward zero; [int(nan)] raises [ValueError],
    [int(inf)] raises [OverflowError]. *)
Definition int_of_float (f : spec_float) : result Z :=
  match f with
  | S754_zero _ => Ok 0
  | S754_nan => Raise ValueError
  | S754_infinity _ => Raise OverflowError
  | S754_finite s m e =>
      let mag := match e with
                 | Zneg p => Z.shiftr (Zpos m) (Zpos p)
                 | _ => Z.shiftl (Zpos m) e
                 end in
      Ok (if s then - mag else mag)
  end.

(** [x / y] on floats: a zero divisor raises [ZeroDivisionError]. *)
Definition float_truediv (x y : spec_float) : result spec_float :=
  if is_zero y then Raise ZeroDivisionError else Ok (fdiv x y).

(** The C [fmod]: [x - n * y] with [n] the quotient truncated toward zero,
    computed exactly; the result has the sign of [x]. *)
Definition c_fmod (x y : spec_float) : spec_float :=
  match x, y with
  | S754_nan, _ | _, S754_nan => S754_nan
  | S754_infinity _, _ => S754_nan
  | _, S754_zero _ => S754_nan
  | S754_zero _, _ => x
  | _, S754_infinity _ => x
  | S754_finite sx mx ex, S754_finite _ my ey =>
      let e := Z.min ex ey in
      let X := Z.shiftl (Zpos mx) (ex - e) in
      let Y := Z.shiftl (Zpos my) (ey - e) in
      let R := Z.rem X Y in
      binary_normalize prec emax (if sx then - R else R) e sx
  end.

(** [x % y] on floats ([float_rem] of CPython 2.7): [fmod], moved into the
    range of the divisor's sign; a zero result is [+0.0] for a positive
    divisor. *)
Definition float_mod (x y : spec_float) : result spec_float :=
  if is_zero y then Raise ZeroDivisionError else
  let m := c_fmod x y in
  if is_zero m
  then Ok (if flt y (S754_zero false) then S754_zero true else S754_zero false)
  else if Bool.eqb (flt y (S754_zero false)) (flt m (S754_zero false))
       then Ok m
       else Ok (fadd m y).

(** ** Truth values and coercions *)

(** [bool(v)]: [None], [0], [0.0] and [-0.0] are false; a NaN is true. *)
Definition truthy (v : pynum) : bool :=
  match v with
  | NNone => false
  | NInt z => negb (z =? 0)
  | NFloat f => negb (is_zero f)
  end.

(** [int(v)] *)
Definition py_int (v : pynum) : result Z :=
  match v with
  | NNone => Raise TypeError
  | NInt z => Ok z
  | NFloat f => int_of_float f
  end.

(** [float(v)] *)
Definition py_float (v : pynum) : result spec_float :=
  match v with
  | NNone => Raise TypeError
  | NInt z => float_of_int z
  | NFloat f => Ok f
  end.

(** ** Decimal output *)

Definition digit_char (d : Z) : ascii :=
  ascii_of_nat (48 + Z.to_nat d).

(** The decimal digits of [n], most significant first, in front of [acc];
    [fuel] bounds the number of digits. *)
Fixpoint digits_from (fuel : nat) (n : Z) (acc : string) : string :=
  match fuel with
  | O => acc
  | S fuel' =>
      let acc' := String (digit_char (n mod 10)) acc in
      if n <? 10 then acc' else digits_from fuel' (n / 10) acc'
  end.

Definition str_of_nonneg (n : Z) : string :=
  digits_from (S (Z.to_nat (Z.log2 n))) n EmptyString.

(** [str(z)] and ['%d' % z] for an int *)
Definition str_of_int (z : Z) : string :=
  if z <? 0 then String "-"%char (str_of_nonneg (- z)) else str_of_nonneg z.

(** ['%d' % x] for a float: the int conversion, then decimal digits. *)
Definition fmt_d_float (f : spec_float) : result string :=
  n <- int_of_float f ;; Ok (str_of_int n).

(** [m * 2^e], scaled by [10^d] and rounded to an integer, ties to even. *)
Definition round_scaled (d : Z) (m : positive) (e : Z) : Z :=
  let num := Zpos m * 10 ^ d in
  match e with
  | Zneg p =>
      let den := 2 ^ Zpos p in
      let q := num / den in
      let r := num mod den in
      match 2 * r ?= den with
      | Lt => q
      | Gt => q + 1
      | Eq => if Z.even q then q else q + 1
      end
  | _ => num * 2 ^ e
  end.

(** [n] with at least [width] digits, zero-padded on the left *)
Fixpoint zero_pad (width : nat) (n : Z) (acc : string) : string :=
  match width with
  | O => acc
  | S w => zero_pad w (n / 10) (String (digit_char (n mod 10)) acc)
  end.

(** ['%.Nf' % x] with [N = d] decimals *)
Definition fmt_f (d : nat) (f : spec_float) : string :=
  let unsigned (n : Z) : string :=
    let scale := 10 ^ Z.of_nat d in
    match d with
    | O => str_of_nonneg n
    | _ => (str_of_nonneg (n / scale) ++ "." ++ zero_pad d (n mod scale) EmptyString)%string
    end in
  match f with
  | S754_nan => "nan"%string
  | S754_infinity s => if s then "-inf"%string else "inf"%string
  | S754_zero s =>
      if s then String "-"%char (unsigned 0) else unsigned 0
  | S754_finite s m e =>
      let n := round_scaled (Z.of_nat d) m e in
      if s then String "-"%char (unsigned n) else unsigned n
  end.

(** ** small_count *)

Section SmallCount.

(** [_]: the message catalogue of the active locale *)
Variable gettext : string -> string.

Definition small_count_units : list (Z * string) :=
  [ (1000000000, gettext "b"); (1000000, gettext "m"); (1000, gettext "k") ].

(** The [for x, y in z] loop, with its two early returns; falling off the
    end of the list returns [v] itself. *)
Fixpoint small_count_loop (v : Z) (z : list (Z * string)) : result pyval :=
  match z with
  | [] => Ok (VInt v)
  | (x, y) :: z' =>
      let (o, p) := Z.div_eucl v x in
      if negb (o =? 0) then
        if (2 <? Z.of_nat (String.length (str_of_int o))) || (p =? 0)
        then Ok (VStr (str_of_int o ++ y))
        else
          fv <- float_of_int v ;;
          fx <- float_of_int x ;;
          q <- float_truediv fv fx ;;
          Ok (VStr (fmt_f 1 q ++ y))
      else small_count_loop v z'
  end.

Definition small_count (v : pynum) : result pyval :=
  if negb (truthy v) then Ok (VInt 0) else
  n <- py_int v ;;
  small_count_loop n small_count_units.

End SmallCount.

(** The catalogue of the source language: every message is its own
    translation. *)
Definition untranslated (msgid : string) : string := msgid.

(** ** duration *)

(** ['%d' % v] for the int and float values the hour and minute slots hold *)
Definition fmt_d (v : pynum) : result string :=
  match v with
  | NNone => Raise TypeError
  | NInt z => Ok (str_of_int z)
  | NFloat f => fmt_d_float f
  end.

(** [''.join(output)] *)
Definition join_empty (output : list string) : string :=
  String.concat EmptyString output.

Definition duration (value : pynum) : result string :=
  if negb (truthy value) then Ok "0s"%string else
  (* value is assumed to be in ms *)
  f <- py_float value ;;
  value <- float_truediv f (flit 1000) ;;
  let hours := NInt 0 in
  let minutes := NInt 0 in
  hv <- (if fgt value (flit 3600)
         then h <- float_truediv value (flit 3600) ;;
              r <- float_mod value (flit 3600) ;;
              Ok (NFloat h, r)
         else Ok (hours, value)) ;;
  let hours := fst hv in
  let value := snd hv in
  mv <- (if fgt value (flit 60)
         then m <- float_truediv value (flit 60) ;;
              r <- float_mod value (flit 60) ;;
              Ok (NFloat m, r)
         else Ok (minutes, value)) ;;
  let minutes := fst mv in
  let value := snd mv in
  let seconds := value in
  let output := [] in
  output <- (if truthy hours
             then s <- fmt_d hours ;; Ok (output ++ [s ++ "h"]%string)
             else Ok output) ;;
  output <- (if truthy minutes
             then s <- fmt_d minutes ;; Ok (output ++ [s ++ "m"]%string)
             else Ok output) ;;
  output <- (if fgt seconds (flit 1)
             then Ok (output ++ [fmt_f 2 seconds ++ "s"]%string)
             else if truthy (NFloat seconds)
             then s <- fmt_d_float (fmul seconds (flit 1000)) ;;
                  Ok (output ++ [s ++ "ms"]%string)
             else Ok output) ;;
  Ok (join_empty output).

(** ** percent *)

Definition percent (value total : pynum) : result Z :=
  if negb (truthy value && truthy total) then Ok 0 else
  n <- py_int value ;;
  b <- py_float total ;;
  a <- float_of_int n ;;
  q <- float_truediv a b ;;
  int_of_float (fmul q (flit 100)).

(** ** pprint *)

Fixpoint take (n : nat) (s : string) : string :=
  match n, s with
  | S n', String c s' => String c (take n' s')
  | _, _ => EmptyString
  end.

Fixpoint drop (n : nat) (s : string) : string :=
  match n, s with
  | S n', String _ s' => drop n' s'
  | _, _ => s
  end.

(** A slice bound as Python reads it: a negative bound counts from the end,
    and every bound is clamped to the string. *)
Definition slice_bound (len i : Z) : Z :=
  let i := if i <? 0 then i + len else i in
  Z.max 0 (Z.min len i).

(** [s[lo:hi]] *)
Definition py_slice (s : string) (lo hi : Z) : string :=
  let len := Z.of_nat (String.length s) in
  let lo := slice_bound len lo in
  let hi := slice_bound len hi in
  take (Z.to_nat (hi - lo)) (drop (Z.to_nat lo) s).

Fixpoint range_from (n : nat) (i step : Z) : list Z :=
  match n with
  | O => []
  | S n' => i :: range_from n' (i + step) step
  end.

(** The number of items of [range(start, stop, step)] for a non-zero step *)
Definition range_len (start stop step : Z) : Z :=
  if 0 <? step
  then (if start <? stop then (stop - start - 1) / step + 1 else 0)
  else (if stop <? start then (start - stop - 1) / (- step) + 1 else 0).

Section Platform.

(** [sys.maxint], the largest C long of the platform the interpreter is
    built for: [2^63 - 1] where a long has 64 bits, [2^31 - 1] where it has
    32. *)
Variable maxint : Z.

(** Whether a Python int converts to a C long *)
Definition fits_long (z : Z) : bool := (- maxint - 1 <=? z) && (z <=? maxint).

(** [range(start, stop, step)].  The source takes [range] from [six.moves],
    which on Python 2 is [xrange]: the three arguments are converted to C
    longs, and one that does not fit raises [OverflowError]; then a zero
    step raises [ValueError], and a range of more than [sys.maxint] items
    raises [OverflowError].  The items are listed in the order the loop
    visits them. *)
Definition py_range (start stop step : Z) : result (list Z) :=
  if negb (fits_long start && fits_long stop && fits_long step)
  then Raise OverflowError
  else if step =? 0 then Raise ValueError
  else
    let n := range_len start stop step in
    if maxint <? n then Raise OverflowError
    else Ok (range_from (Z.to_nat n) start step).

(** Modelled from the spec: [sentry.utils.to_unicode] is not part of the
    sources; the soft-wrap helper of the spec takes text, and coercing text
    to text leaves it as it is. *)
Definition to_unicode (value : string) : string := value.

(** [django.utils.html.escape]: the five characters HTML gives a meaning to
    are replaced by their entities. *)
Definition escape_char (c : ascii) : string :=
  if Ascii.eqb c "&" then "&amp;"
  else if Ascii.eqb c "<" then "&lt;"
  else if Ascii.eqb c ">" then "&gt;"
  else if Ascii.eqb c (ascii_of_nat 34) then "&quot;"
  else if Ascii.eqb c "'" then "&#39;"
  else String c EmptyString.

Fixpoint escape (s : string) : string :=
  match s with
  | EmptyString => EmptyString
  | String c s' => (escape_char c ++ escape s')%string
  end.

(** [mark_safe] only tags the text as already escaped. *)
Definition mark_safe (s : string) : string := s.

Definition span_marker : string := "<span></span>".

Definition pprint (value : string) (break_after : Z) : result string :=
  let value := to_unicode value in
  idx <- py_range 0 (Z.of_nat (String.length value)) break_after ;;
  Ok (mark_safe
        (String.concat span_marker
           (map (fun i => escape (py_slice value i (i + break_after))) idx))).

End Platform.

(** [sys.maxint] where a C long has 64 bits, for worked examples *)
Definition maxint64 : Z := 9223372036854775807.

(** ** timesince *)

(** A timezone-aware [datetime]: the wall-clock fields and the offset of its
    zone from UTC in minutes. *)
Record datetime : Type := mkdatetime {
  dt_date : date;
  hour : Z;
  minute : Z;
  second : Z;
  microsecond : Z;
  utcoffset : Z
}.

Definition is_leap (y : Z) : bool :=
  (y mod 4 =? 0) && (negb (y mod 100 =? 0) || (y mod 400 =? 0)).

Definition days_before_year (y : Z) : Z :=
  let y := y - 1 in
  y * 365 + y / 4 - y / 100 + y / 400.

Definition days_before_month (y m : Z) : Z :=
  nth (Z.to_nat (m - 1)) [0; 31; 59; 90; 120; 151; 181; 212; 243; 273; 304; 334] 0
  + (if (2 <? m) && is_leap y then 1 else 0).

(** The proleptic Gregorian ordinal of a date; 0001-01-01 is day 1. *)
Definition ymd2ord (d : date) : Z :=
  days_before_year (year d) + days_before_month (year d) (month d) + day d.

Definition us_per_second : Z := 1000000.
Definition us_per_day : Z := 86400 * us_per_second.

(** The point in time an aware datetime denotes, in microseconds of UTC.
    Aware datetimes are compared and subtracted through it. *)
Definition instant (t : datetime) : Z :=
  (ymd2ord (dt_date t) * 86400
   + hour t * 3600 + minute t * 60 + second t
   - utcoffset t * 60) * us_per_second
  + microsecond t.

(** [value.date()] *)
Definition date_of (t : datetime) : date := dt_date t.

(** [s.split(sep)] for a one-character separator *)
Fixpoint split_on (sep : ascii) (s : string) : list string :=
  match s with
  | EmptyString => [EmptyString]
  | String c s' =>
      if Ascii.eqb c sep then EmptyString :: split_on sep s'
      else match split_on sep s' with
           | hd :: tl => String c hd :: tl
           | [] => [String c EmptyString]
           end
  end.

Fixpoint lstrip (c : ascii) (s : string) : string :=
  match s with
  | EmptyString => EmptyString
  | String a s' => if Ascii.eqb a c then lstrip c s' else s
  end.

Fixpoint rstrip (c : ascii) (s : string) : string :=
  match s with
  | EmptyString => EmptyString
  | String a s' =>
      match rstrip c s' with
      | EmptyString => if Ascii.eqb a c then EmptyString else String a EmptyString
      | r => String a r
      end
  end.

(** [s.strip(c)] for a one-character set *)
Definition strip (c : ascii) (s : string) : string := rstrip c (lstrip c s).

(** The units of [django.utils.timesince]: seconds, singular, plural. *)
Definition timesince_chunks : list (Z * (string * string)) :=
  [ (60 * 60 * 24 * 365, ("year", "years"));
    (60 * 60 * 24 * 30, ("month", "months"));
    (60 * 60 * 24 * 7, ("week", "weeks"));
    (60 * 60 * 24, ("day", "days"));
    (60 * 60, ("hour", "hours"));
    (60, ("minute", "minutes")) ]%string.

(** U+00A0, the no-break space *)
Definition nbsp : ascii := ascii_of_nat 160.

(** [django.utils.timesince] changed with Django 1.6 in what it writes
    between a count and its unit: a plain space up to Django 1.5, and since
    Django 1.6 the result of [avoid_wrapping], which puts U+00A0 where the
    spaces were.  Nothing in the sources fixes the release, so the library
    is modelled for both. *)
Inductive django_release : Type :=
| Django_1_5
| Django_1_6.

(** [s.replace(old, new)] for single characters *)
Fixpoint replace_char (old new : ascii) (s : string) : string :=
  match s with
  | EmptyString => EmptyString
  | String c s' =>
      String (if Ascii.eqb c old then new else c) (replace_char old new s')
  end.

(** [django.utils.html.avoid_wrapping] of Django 1.6:
    [value.replace(" ", "\xa0")]; the releases before it leave the text as
    it is. *)
Definition avoid_wrapping (release : django_release) (value : string) : string :=
  match release with
  | Django_1_5 => value
  | Django_1_6 => replace_char " " nbsp value
  end.

(** The count with its unit, singular for a count of one, as
    [avoid_wrapping(name % count)] gives it *)
Definition count_unit (release : django_release) (name : string * string)
    (count : Z) : string :=
  avoid_wrapping release
    (str_of_int count ++ " " ++ (if (count =? 1)%Z then fst name else snd name))%string.

(** The scan for the first unit with a non-zero count, followed by [", "]
    and the next smaller unit when its count is non-zero too; the last unit
    is taken whatever its count.  The comma and the space after it are not
    passed through [avoid_wrapping]. *)
Fixpoint timesince_scan (release : django_release) (since : Z)
    (chunks : list (Z * (string * string))) : string :=
  match chunks with
  | [] => EmptyString
  | (seconds, name) :: rest =>
      let count := since / seconds in
      match rest with
      | [] => count_unit release name count
      | (seconds2, name2) :: _ =>
          if negb (count =? 0) then
            let count2 := (since - seconds * count) / seconds2 in
            if negb (count2 =? 0)
            then (count_unit release name count ++ ", "
                  ++ count_unit release name2 count2)%string
            else count_unit release name count
          else timesince_scan release since rest
      end
  end.

(** Whole seconds from [d] to [now]: [delta.days * 86400 + delta.seconds]
    of the normalised [timedelta], which drops the microseconds. *)
Definition elapsed_seconds (d now : datetime) : Z :=
  (instant now - instant d) / us_per_second.

(** Modelled from the spec: [django.template.defaultfilters.timesince] is a
    library function outside the sources.  It gives the human delta of the
    spec: the two most significant adjacent units, as in ["3 days, 2 hours"],
    and ["0 minutes"] when nothing has elapsed, each count and unit passed
    through [avoid_wrapping].  The text is the one of the library's own
    untranslated (English) messages. *)
Definition django_timesince (release : django_release) (d now : datetime) : string :=
  let since := elapsed_seconds d now in
  if since <=? 0 then avoid_wrapping release "0 minutes"
  else timesince_scan release since timesince_chunks.

Section Timesince.

(** [django.template.defaultfilters.timesince], which the filter imports
    when it is called: whatever the installed library answers *)
Variable defaultfilters_timesince : datetime -> datetime -> string.

Variable gettext : string -> string.

(** [timezone.now()]: the reading of the clock when the filter runs *)
Variable clock : datetime.

Definition timesince (value now : option datetime) : pyval :=
  let now := match now with
             | None => clock
             | Some n => n
             end in
  match value with
  | None => VStr (gettext "never")
  | Some value =>
      if instant value <? instant now - 5 * us_per_day
      then VDate (date_of value)
      else
        let value :=
          strip ","
            (String.concat " "
               (firstn 2 (split_on " " (defaultfilters_timesince value now)))) in
        if String.eqb value (gettext "0 minutes") then VStr (gettext "just now")
        else if String.eqb value (gettext "1 day") then VStr (gettext "yesterday")
        else VStr (value ++ gettext " ago")
  end.

End Timesince.

(** A UTC datetime on a whole second, for worked examples *)
Definition utc (y mo d h mi s : Z) : datetime :=
  mkdatetime (mkdate y mo d) h mi s 0 0.

(** ** num_digits *)

(** [len(str(value))] for an int *)
Definition num_digits (value : Z) : Z :=
  Z.of_nat (String.length (str_of_int value)).

(** The characters HTML gives a meaning to inside text and attributes,
    other than the ampersand *)
Definition html_special : list ascii :=
  ["<"; ">"; ascii_of_nat 34; "'"]%char.

(** Whether [duration] writes [v] milliseconds as the digits of [v] and
    "ms" *)
Definition duration_is_ms (v : Z) : bool :=
  match duration (NInt v) with
  | Ok s => String.eqb s (str_of_int v ++ "ms")
  | Raise _ => false
  end.

(** Whether [percent value total] is the exact floor of the percentage or
    one below it, and 100 for the whole *)
Definition percent_is_close (total value : Z) : bool :=
  match percent (NInt value) (NInt total) with
  | Ok p =>
      (100 * value / total - 1 <=? p) && (p <=? 100 * value / total)
      && ((p =? 100) || negb (value =? total))
  | Raise _ => false
  end.

(** * The filters in the words of the specification *)

(** The first unit of the table whose integer quotient is not zero *)
Definition first_unit (units : list (Z * string)) (v : Z) : option (Z * string) :=
  find (fun xy => negb (v / fst xy =? 0)) units.

(** The compact number: the integer quotient when it has more than two
    digits or nothing is left over, else one decimal of the quotient; the
    value itself below the smallest unit. *)
Definition small_count_spec (gettext : string -> string) (v : Z) : pyval :=
  match first_unit (small_count_units gettext) v with
  | Some (x, y) =>
      if (100 <=? v / x) || (v mod x =? 0)
      then VStr (str_of_int (v / x) ++ y)
      else VStr (fmt_f 1 (fdiv (flit v) (flit x)) ++ y)
  | None => VInt v
  end.

(** Hours or minutes taken out of a number of seconds: the quotient by the
    unit and what is left over, when the seconds exceed the unit. *)
Definition take_unit (value : spec_float) (unit : Z) : result (pynum * spec_float) :=
  if fgt value (flit unit)
  then q <- float_truediv value (flit unit) ;;
       r <- float_mod value (flit unit) ;;
       Ok (NFloat q, r)
  else Ok (NInt 0, value).

(** The hour or minute part of the output: nothing for a zero component,
    else its integer part and the unit letter. *)
Definition unit_component (v : pynum) (unit : string) : result string :=
  if truthy v then d <- fmt_d v ;; Ok (d ++ unit)%string else Ok EmptyString.

(** The seconds part: two decimals above one second; below, the
    milliseconds as [ms_digits] writes them; nothing for zero. *)
Definition seconds_component (ms_digits : spec_float -> result string)
    (seconds : spec_float) : result string :=
  if fgt seconds (flit 1) then Ok (fmt_f 2 seconds ++ "s")%string
  else if negb (is_zero seconds)
  then d <- ms_digits (fmul seconds (flit 1000)) ;; Ok (d ++ "ms")%string
  else Ok EmptyString.

(** The duration: "0s" for a false input, else the hour, minute and second
    parts one after the other. *)
Definition duration_spec (ms_digits : spec_float -> result string)
    (value : pynum) : result string :=
  if negb (truthy value) then Ok "0s"%string else
  ms <- py_float value ;;
  value <- float_truediv ms (flit 1000) ;;
  hv <- take_unit value 3600 ;;
  mv <- take_unit (snd hv) 60 ;;
  h <- unit_component (fst hv) "h" ;;
  m <- unit_component (fst mv) "m" ;;
  s <- seconds_component ms_digits (snd mv) ;;
  Ok (h ++ m ++ s)%string.

(** The milliseconds as the format [{:.0f}] writes them: rounded to the
    nearest integer. *)
Definition ms_rounded (x : spec_float) : result string := Ok (fmt_f 0 x).

(** The milliseconds as ['%d'] writes them: cut to the integer part. *)
Definition ms_truncated (x : spec_float) : result string := fmt_d_float x.

(** The rational number a finite double stands for *)
Definition float_value (f : spec_float) : option Q :=
  match f with
  | S754_zero _ => Some 0%Q
  | S754_finite s m e =>
      let n := if s then Zneg m else Zpos m in
      Some match e with
           | Zneg p => Qmake n (2 ^ p)%positive
           | _ => inject_Z (n * 2 ^ e)
           end
  | _ => None
  end.

(** A rational cut to its integer part, toward zero *)
Definition Qtruncate (q : Q) : Z := Z.quot (Qnum q) (Zpos (Qden q)).

(** [floor(value / total * 100)] over the rationals *)
Definition percent_floor (value total : Z) : Z :=
  Qfloor (inject_Z value / inject_Z total * 100)%Q.

(** The double [int(value) / float(total) * 100] *)
Definition percent_product (value total : pynum) : result spec_float :=
  n <- py_int value ;;
  b <- py_float total ;;
  a <- float_of_int n ;;
  q <- float_truediv a b ;;
  Ok (fmul q (flit 100)).

(** percent: 0 when either argument is false, else the double product cut
    to its integer part; a product that is not a number or not finite cannot
    be converted. *)
Definition percent_spec (value total : pynum) : result Z :=
  if negb (truthy value) || negb (truthy total) then Ok 0 else
  x <- percent_product value total ;;
  match x, float_value x with
  | _, Some q => Ok (Qtruncate q)
  | S754_nan, None => Raise ValueError
  | _, None => Raise OverflowError
  end.

(** [n] consecutive chunks of [size] characters, the last ones shorter or
    empty when the text runs out *)
Fixpoint chunks_of (n size : nat) (s : string) : list string :=
  match n with
  | O => []
  | S n' => take size s :: chunks_of n' size (drop size s)
  end.

(** The text cut every [size] characters: as many chunks as it takes to
    cover it. *)
Definition chunks (size : Z) (s : string) : list string :=
  let len := Z.of_nat (String.length s) in
  chunks_of (Z.to_nat ((len + size - 1) / size)) (Z.to_nat size) s.

(** The time the filter measures from: the [now] argument, or the clock. *)
Definition reference_time (clock : datetime) (now : option datetime) : datetime :=
  match now with
  | None => clock
  | Some n => n
  end.

(** The text without its commas *)
Fixpoint without_commas (s : string) : string :=
  match s with
  | EmptyString => EmptyString
  | String c s' =>
      if Ascii.eqb c "," then without_commas s' else String c (without_commas s')
  end.

(** The delta phrase of the two most significant units with its comma
    removed, as in "3 days 2 hours" *)
Definition two_unit_phrase (release : django_release) (d now : datetime) : string :=
  without_commas (django_timesince release d now).

(** Whether [c] occurs in [s] *)
Fixpoint has_char (c : ascii) (s : string) : bool :=
  match s with
  | EmptyString => false
  | String a s' => Ascii.eqb a c || has_char c s'
  end.

Definition is_digit (c : ascii) : bool :=
  has_char c "0123456789".

Fixpoint only_digits (s : string) : bool :=
  match s with
  | EmptyString => true
  | String a s' => is_digit a && only_digits s'
  end.

(** Whether a phrase is neither of the two that the filter words apart *)
Definition plain_phrase (phrase : string) : bool :=
  negb (String.eqb phrase "0 minutes") && negb (String.eqb phrase "1 day").

(** The character a release of the library leaves between a count and its
    unit *)
Definition unit_gap (release : django_release) : ascii :=
  match release with
  | Django_1_5 => " "%char
  | Django_1_6 => nbsp
  end.

(** A count and its unit with [gap] between them, the unit in the singular
    for a count of one *)
Definition counted (gap : ascii) (name : string * string) (count : Z) : string :=
  (str_of_int count
   ++ String gap (if (count =? 1)%Z then fst name else snd name))%string.

(** The count and name of the most significant unit of an elapsed time of
    at most five days; zero minutes below one minute. *)
Definition leading_unit (gap : ascii) (since : Z) : string :=
  if 86400 <=? since then counted gap ("day", "days")%string (since / 86400)
  else if 3600 <=? since then counted gap ("hour", "hours")%string (since / 3600)
  else if 60 <=? since then counted gap ("minute", "minutes")%string (since / 60)
  else counted gap ("minute", "minutes")%string 0.

(** A comma, a space and the count of the next smaller unit, when that
    count is not zero: the hours left over after whole days, the minutes
    left over after whole hours *)
Definition second_unit (gap : ascii) (since : Z) : string :=
  if 86400 <=? since then
    if since mod 86400 / 3600 =? 0 then EmptyString
    else (", " ++ counted gap ("hour", "hours") (since mod 86400 / 3600))%string
  else if 3600 <=? since then
    if since mod 3600 / 60 =? 0 then EmptyString
    else (", " ++ counted gap ("minute", "minutes") (since mod 3600 / 60))%string
  else EmptyString.

(** The delta phrase of an elapsed time of at most five days *)
Definition delta_phrase (gap : ascii) (since : Z) : string :=
  (leading_unit gap since ++ second_unit gap since)%string.

(** What the filter keeps of the delta phrase, its first two words in
    between plain spaces: the leading unit alone when a plain space stands
    between count and unit, and the whole phrase, comma and second unit
    included, when a no-break space stands there. *)
Definition shown_phrase (release : django_release) (since : Z) : string :=
  match release with
  | Django_1_5 => leading_unit " " since
  | Django_1_6 => delta_phrase nbsp since
  end.

(** ** Text filters: is_url, trim_schema, split, basename *)

(** [s.startswith(pre)] *)
Fixpoint starts_with (pre s : string) : bool :=
  match pre, s with
  | EmptyString, _ => true
  | String a pre', String b s' => Ascii.eqb a b && starts_with pre' s'
  | String _ _, EmptyString => false
  end.

(** Whether one more split is allowed under [maxsplit]; [None] is no limit. *)
Definition may_split (limit : option nat) : bool :=
  match limit with
  | Some O => false
  | _ => true
  end.

Definition one_split_less (limit : option nat) : option nat :=
  match limit with
  | Some (S n) => Some n
  | other => other
  end.

(** The scan of [s.split(sep, maxsplit)], left to right: the head of the
    result is the piece being read; [skip] characters of a separator just
    found are still to be passed over. *)
Fixpoint split_scan (sep : string) (limit : option nat) (skip : nat) (s : string)
  : list string :=
  match s with
  | EmptyString => [EmptyString]
  | String c s' =>
      match skip with
      | S k => split_scan sep limit k s'
      | O =>
          if may_split limit && starts_with sep s
          then EmptyString
               :: split_scan sep (one_split_less limit) (String.length sep - 1) s'
          else match split_scan sep limit 0 s' with
               | piece :: rest => String c piece :: rest
               | [] => [String c EmptyString]
               end
      end
  end.

(** [s.split(sep, maxsplit)]: an empty separator raises [ValueError]. *)
Definition py_split (sep : string) (limit : option nat) (s : string)
  : result (list string) :=
  match sep with
  | EmptyString => Raise ValueError
  | _ => Ok (split_scan sep limit 0 s)
  end.

(** A template value: a number or [None], or text *)
Inductive pyobj : Type :=
| ONum (n : pynum)
| OText (s : string).

Definition is_url (value : pyobj) : bool :=
  match value with
  | ONum _ => false
  | OText s =>
      if negb (starts_with "http://" s || starts_with "https://" s) then false
      else if has_char " " s then false
      else true
  end.

(** [value.split('//', 1)[-1]]; a split has at least one piece. *)
Definition trim_schema (value : string) : string :=
  last (split_scan "//" (Some 1%nat) 0 value) EmptyString.

(** The [split] filter; its default delimiter is the empty string. *)
Definition split (value : string) (delim : option string) : result (list string) :=
  py_split (match delim with
            | None => EmptyString
            | Some d => d
            end) None value.

(** [s.rfind(c)] for one character, scanning from index [i]; [best] is the
    last index found so far, -1 for none. *)
Fixpoint rfind_from (c : ascii) (s : string) (i best : Z) : Z :=
  match s with
  | EmptyString => best
  | String a s' => rfind_from c s' (i + 1) (if Ascii.eqb a c then i else best)
  end.

Definition py_rfind (c : ascii) (s : string) : Z := rfind_from c s 0 (-1).

(** [s[lo:]] *)
Definition py_slice_from (s : string) (lo : Z) : string :=
  drop (Z.to_nat (slice_bound (Z.of_nat (String.length s)) lo)) s.

(** [os.path.basename] of posixpath: what follows the last slash *)
Definition basename (value : string) : string :=
  let i := py_rfind "/" value + 1 in
  py_slice_from value i.

(** ** urlquote *)

(** The characters [urllib.quote] never escapes *)
Definition always_safe : string :=
  "ABCDEFGHIJKLMNOPQRSTUVWXYZabcdefghijklmnopqrstuvwxyz0123456789_.-".

Definition hex_digit (n : nat) : ascii :=
  match String.get n "0123456789ABCDEF" with
  | Some c => c
  | None => "0"%char
  end.

(** ['%%%02X' % ord(c)] *)
Definition percent_escape (c : ascii) : string :=
  let n := nat_of_ascii c in
  String "%" (String (hex_digit (n / 16)) (String (hex_digit (n mod 16)) EmptyString)).

(** The UTF-8 bytes of a code point below 256: itself below 128, else two
    bytes. *)
Definition utf8_bytes (c : ascii) : string :=
  let n := nat_of_ascii c in
  if (n <? 128)%nat then String c EmptyString
  else String (ascii_of_nat (192 + n / 64))
         (String (ascii_of_nat (128 + n mod 64)) EmptyString).

(** [value.encode('utf8')] *)
Fixpoint encode_utf8 (s : string) : string :=
  match s with
  | EmptyString => EmptyString
  | String c s' => (utf8_bytes c ++ encode_utf8 s')%string
  end.

(** [s.rstrip(chars)] for a set of characters *)
Fixpoint rstrip_chars (chars s : string) : string :=
  match s with
  | EmptyString => EmptyString
  | String a s' =>
      match rstrip_chars chars s' with
      | EmptyString => if has_char a chars then EmptyString else String a EmptyString
      | r => String a r
      end
  end.

(** The map of [quote]: a safe byte stands for itself, any other byte is
    escaped. *)
Definition quoter (safe : string) (c : ascii) : string :=
  if has_char c safe then String c EmptyString else percent_escape c.

Fixpoint quote_bytes (safe s : string) : string :=
  match s with
  | EmptyString => EmptyString
  | String c s' => (quoter safe c ++ quote_bytes safe s')%string
  end.

(** [urllib.quote(s, safe)] of Python 2, with its two fast paths: the empty
    string, and a string of safe characters only. *)
Definition quote (s safe : string) : string :=
  match s with
  | EmptyString => s
  | _ =>
      let safe := (always_safe ++ safe)%string in
      match rstrip_chars safe s with
      | EmptyString => s
      | _ => quote_bytes safe s
      end
  end.

Definition urlquote (value safe : string) : string :=
  quote (encode_utf8 value) safe.

(** Whether every character of [s] passes [P] *)
Fixpoint string_forall (P : ascii -> bool) (s : string) : bool :=
  match s with
  | EmptyString => true
  | String a s' => P a && string_forall P s'
  end.

(** Whether a character may stand in quoted text: the percent sign, a
    character that is always safe, or one of the caller's safe ones *)
Definition quoted_char (safe : string) (c : ascii) : bool :=
  Ascii.eqb c "%" || has_char c always_safe || has_char c safe.

(** ** render_values *)

(** The keys of the data shown: list indexes and text *)
Inductive dkey : Type :=
| KInt (i : Z)
| KStr (s : string).

(** The order of Python 2 on these keys: numbers before text, numbers by
    value, text byte by byte. *)
Definition key_leb (a b : dkey) : bool :=
  match a, b with
  | KInt x, KInt y => x <=? y
  | KInt _, KStr _ => true
  | KStr _, KInt _ => false
  | KStr x, KStr y => String.leb x y
  end.

Section RenderValues.

(** The values of the data; the filter never looks into them. *)
Variable A : Type.

(** The order in which a dict built from the given pairs iterates *)
Variable dict_order : list (dkey * A) -> list (dkey * A).

(** What the tag is given: a list or tuple, a dict (its items as it
    iterates), or anything else *)
Inductive rv_input : Type :=
| RList (l : list A)
| RDict (items : list (dkey * A))
| ROther (v : A).

(** [enumerate(l)], counting from [i] *)
Fixpoint enumerate_from (i : Z) (l : list A) : list (dkey * A) :=
  match l with
  | [] => []
  | a :: l' => (KInt i, a) :: enumerate_from (i + 1) l'
  end.

Fixpoint insert_item (x : dkey * A) (l : list (dkey * A)) : list (dkey * A) :=
  match l with
  | [] => [x]
  | y :: l' => if key_leb (fst x) (fst y) then x :: l else y :: insert_item x l'
  end.

(** [sorted(value.iteritems())]: the keys of a dict are distinct, so the
    pairs are ordered by their keys. *)
Definition sorted_items (items : list (dkey * A)) : list (dkey * A) :=
  fold_right insert_item [] items.

(** [l[:k]] and [l[k:]] *)
Definition list_slice_to (l : list (dkey * A)) (k : Z) : list (dkey * A) :=
  firstn (Z.to_nat (slice_bound (Z.of_nat (List.length l)) k)) l.

Definition list_slice_from (l : list (dkey * A)) (k : Z) : list (dkey * A) :=
  skipn (Z.to_nat (slice_bound (Z.of_nat (List.length l)) k)) l.

(** The context handed to the template; a key that is not set is [None]. *)
Record values_context : Type := mk_values_context {
  ctx_is_dict : bool;
  ctx_is_list : bool;
  ctx_threshold : Z;
  ctx_collapse_to : Z;
  ctx_over_threshold : option bool;
  ctx_hidden_values : option Z;
  ctx_value_before_expand : option (list (dkey * A));
  ctx_value_after_expand : option (list (dkey * A));
  ctx_value : option A
}.

Definition render_values (value : rv_input) (threshold collapse_to : Z)
  : values_context :=
  match value with
  | ROther v =>
      mk_values_context false false threshold collapse_to None None None None (Some v)
  | _ =>
      let items := match value with
                   | RList l => dict_order (enumerate_from 0 l)
                   | RDict d => d
                   | ROther _ => []
                   end in
      let is_list := match value with
                     | RList _ => match items with [] => false | _ => true end
                     | _ => false
                     end in
      let value := sorted_items items in
      let value_len := Z.of_nat (List.length value) in
      let over_threshold := threshold <? value_len in
      if over_threshold
      then mk_values_context true is_list threshold collapse_to
             (Some over_threshold) (Some (value_len - collapse_to))
             (Some (list_slice_to value collapse_to))
             (Some (list_slice_from value collapse_to)) None
      else mk_values_context true is_list threshold collapse_to
             (Some over_threshold) (Some 0) (Some value) (Some []) None
  end.

(** The items a dict-like input stands for, as its dict iterates *)
Definition input_items (value : rv_input) : list (dkey * A) :=
  match value with
  | RList l => dict_order (enumerate_from 0 l)
  | RDict d => d
  | ROther _ => []
  end.

Definition is_other (value : rv_input) : bool :=
  match value with
  | ROther _ => true
  | _ => false
  end.

End RenderValues.

Arguments RList {A} _.
Arguments RDict {A} _.
Arguments ROther {A} _.

(** Two items in key order, and in strict key order *)
Definition key_le {A : Type} (x y : dkey * A) : Prop :=
  key_leb (fst x) (fst y) = true.

Definition key_lt {A : Type} (x y : dkey * A) : Prop :=
  key_leb (fst y) (fst x) = false.

Definition is_int_key {A : Type} (x : dkey * A) : Prop :=
  exists i : Z, fst x = KInt i.

(** ** get_rendered_interfaces *)

Section Interfaces.

Variable interface : Type.

(** [safe_execute(interface.to_html, event, is_public=is_public)]: the HTML
    of the interface, or [None] when rendering gave nothing or failed *)
Variable to_html : interface -> bool -> option string.

Variable get_display_score : interface -> Z.

(** The loop over [event.interfaces.itervalues()], given in the order of
    the iteration: an interface with no HTML is passed over. *)
Fixpoint rendered_list (is_public : bool) (interfaces : list interface)
  : list (interface * string) :=
  match interfaces with
  | [] => []
  | i :: rest =>
      match to_html i is_public with
      | None => rendered_list is_public rest
      | Some html =>
          match html with
          | EmptyString => rendered_list is_public rest
          | _ => (i, mark_safe html) :: rendered_list is_public rest
          end
      end
  end.

Fixpoint insert_by_score (x : interface * string) (l : list (interface * string))
  : list (interface * string) :=
  match l with
  | [] => [x]
  | y :: l' =>
      if get_display_score (fst y) <=? get_display_score (fst x)
      then x :: l
      else y :: insert_by_score x l'
  end.

(** [sorted(l, key=score, reverse=True)]: highest score first; the sort is
    stable, so items of equal score keep their order. *)
Definition sorted_by_score (l : list (interface * string))
  : list (interface * string) :=
  fold_right insert_by_score [] l.

Definition get_rendered_interfaces (interfaces : list interface) (is_public : bool)
  : list (interface * string) :=
  let interface_list := rendered_list is_public interfaces in
  sorted_by_score interface_list.

(** One rendered interface scores at least as much as another. *)
Definition score_ge (x y : interface * string) : Prop :=
  get_display_score (fst y) <= get_display_score (fst x).

(** The items of a list that have the given score *)
Definition with_score (s : Z) (l : list (interface * string))
  : list (interface * string) :=
  filter (fun x => get_display_score (fst x) =? s) l.

End Interfaces.

(** ** get_project_dsn *)

(** What a lookup in the database can raise *)
Inductive orm_exn : Type :=
| DoesNotExist
| MultipleObjectsReturned
| IndexError.

(** A computation that returns or raises *)
Inductive outcome (A : Type) : Type :=
| Returned (a : A)
| Raised (e : orm_exn).

Arguments Returned {A} _.
Arguments Raised {A} _.

(** The template context: the variables that are set; a variable can be set
    to [None]. *)
Definition context : Type := string -> option (option string).

(** [context[asvar] = v] *)
Definition context_set (asvar : string) (v : option string) (c : context) : context :=
  fun name => if String.eqb name asvar then Some v else c name.

(** [queryset[0]]: the first row; an empty queryset raises [IndexError]. *)
Definition first_row {A : Type} (rows : list A) : outcome A :=
  match rows with
  | row :: _ => Returned row
  | [] => Raised IndexError
  end.

Section ProjectDsn.

Variable project_key : Type.
Variable get_dsn : project_key -> string.

(** The rows of [ProjectKey.objects.filter(user=None, project=project)] *)
Variable shared_keys : list project_key.

(** What [ProjectKey.objects.get(user=user, project=project)] does *)
Variable user_key : outcome project_key.

(** The tag returns the empty string and the context it has changed, or
    raises. *)
Definition get_project_dsn (c : context) (is_authenticated : bool) (asvar : string)
  : outcome (string * context) :=
  if negb is_authenticated
  then Returned (EmptyString, context_set asvar None c)
  else
    match first_row shared_keys with
    | Raised DoesNotExist =>
        match user_key with
        | Raised IndexError => Returned (EmptyString, context_set asvar None c)
        | Raised e => Raised e
        | Returned key =>
            Returned (EmptyString, context_set asvar (Some (get_dsn key)) c)
        end
    | Raised e => Raised e
    | Returned key => Returned (EmptyString, context_set asvar (Some (get_dsn key)) c)
    end.

End ProjectDsn.

(** ** as_bookmarks and with_metadata *)

Section Bookmarks.

Variables group project user : Type.
Variable pk : group -> Z.
Variable project_of : group -> project.
Variable is_authenticated : user -> bool.

(** The group ids of
    [project.bookmark_set.filter(user=user, group__in=group_list)] *)
Variable bookmarked_ids : project -> user -> list group -> list Z.

(** The [bookmarks] set both filters build first *)
Definition bookmark_set (group_list : list group) (u : user) : list Z :=
  match group_list with
  | first :: _ =>
      if is_authenticated u
      then bookmarked_ids (project_of first) u group_list
      else []
  | [] => []
  end.

(** [x in bookmarks] *)
Definition in_set (x : Z) (s : list Z) : bool := existsb (Z.eqb x) s.

Definition as_bookmarks (group_list : list group) (u : user) : list (group * bool) :=
  let bookmarks := bookmark_set group_list u in
  map (fun g => (g, in_set (pk g) bookmarks)) group_list.

(** The dict yielded with each group *)
Record metadata : Type := mk_metadata {
  is_bookmarked : bool;
  historical_data : string
}.

(** [historical_data.get(g.id, [])] on the empty dict the filter starts
    from, and the second fields of its rows as text *)
Definition historical_rows (historical : list (Z * list (Z * Z))) (id : Z)
  : list string :=
  match find (fun row => fst row =? id) historical with
  | Some row => map (fun x => str_of_int (snd x)) (snd row)
  | None => []
  end.

Definition with_metadata (group_list : list group) (request_user : user)
  : list (group * metadata) :=
  let bookmarks := bookmark_set group_list request_user in
  let historical : list (Z * list (Z * Z)) := [] in
  map (fun g =>
         (g, mk_metadata (in_set (pk g) bookmarks)
               (String.concat "," (historical_rows historical (pk g)))))
    group_list.

End Bookmarks.

(** ** titlize and render_tag_widget *)

Definition is_lower (c : ascii) : bool :=
  let n := nat_of_ascii c in ((97 <=? n) && (n <=? 122))%nat.

Definition is_upper (c : ascii) : bool :=
  let n := nat_of_ascii c in ((65 <=? n) && (n <=? 90))%nat.

Definition to_upper (c : ascii) : ascii :=
  if is_lower c then ascii_of_nat (nat_of_ascii c - 32) else c.

Definition to_lower (c : ascii) : ascii :=
  if is_upper c then ascii_of_nat (nat_of_ascii c + 32) else c.

(** One step of [title()]: the character written and whether it was a
    letter.  A letter after a letter is lowered, a letter after anything else
    is raised. *)
Definition title_char (previous_is_cased : bool) (c : ascii) : ascii * bool :=
  if is_lower c then ((if previous_is_cased then c else to_upper c), true)
  else if is_upper c then ((if previous_is_cased then to_lower c else c), true)
  else (c, false).

Fixpoint title_from (previous_is_cased : bool) (s : string) : string :=
  match s with
  | EmptyString => EmptyString
  | String c s' =>
      let (c', cased) := title_char previous_is_cased c in
      String c' (title_from cased s')
  end.

(** [s.title()] on ASCII text *)
Definition py_title (s : string) : string := title_from false s.

Definition titlize (value : string) : string :=
  py_title (replace_char "_" " " value).

(** Text of ASCII characters only, on which [title()] is as above for byte
    strings and for unicode alike *)
Definition is_ascii_text (s : string) : bool :=
  string_forall (fun c => (nat_of_ascii c <? 128)%nat) s.

(** The context of the tag widget *)
Record tag_widget (G : Type) : Type := mk_tag_widget {
  widget_title : string;
  widget_tag_name : string;
  widget_group : G
}.

Definition render_tag_widget {G : Type} (group : G) (tag : string) : tag_widget G :=
  mk_tag_widget G (py_title (replace_char "_" " " tag)) tag group.

(** Whether [duration] writes [m] whole minutes as the digits of [m] and
    "m", and [h] whole hours as the digits of [h] and "h" *)
Definition duration_is_minutes (m : Z) : bool :=
  match duration (NInt (60000 * m)) with
  | Ok s => String.eqb s (str_of_int m ++ "m")
  | Raise _ => false
  end.

Definition duration_is_hours (h : Z) : bool :=
  match duration (NInt (3600000 * h)) with
  | Ok s => String.eqb s (str_of_int h ++ "h")
  | Raise _ => false
  end.

(** * Properties *)

(** ** duration on whole seconds *)

(** C1, as stated, fails: a leftover of exactly one second is not greater
    than one, so it takes the millisecond branch. *)
Lemma duration_one_second_not_two_decimals :
  ~ (duration (NInt 61000) = Ok "1m1.00s"%string /\
     duration (NInt 3661000) = Ok "1h1m1.00s"%string).
Proof.
  intros [H _]. vm_compute in H. discriminate H.
Qed.

(** C1, amended: for 61000 ms the duration filter returns "1m1000ms" and for
    3661000 ms it returns "1h1m1000ms": the leftover second fails the strict
    test [seconds > 1] and is rendered in milliseconds. *)
Theorem duration_one_second_leftover :
  duration (NInt 61000) = Ok "1m1000ms"%string /\
  duration (NInt 3661000) = Ok "1h1m1000ms"%string.
Proof.
  split; vm_compute; reflexivity.
Qed.

(** ** small_count on concrete values *)

(** C2, as stated, fails: the quotient 2 has one digit and the remainder is
    not zero, so the one-decimal branch is taken. *)
Lemma small_count_2500000000_not_2b :
  small_count untranslated (NInt 2500000000) <> Ok (VStr "2b").
Proof.
  vm_compute. discriminate.
Qed.

(** C2, amended: small_count applied to 2500000000 returns the string "2.5"
    followed by the billion unit, whatever the message catalogue. *)
Theorem small_count_2500000000 :
  forall gettext : string -> string,
    small_count gettext (NInt 2500000000)
    = Ok (VStr ("2.5" ++ gettext "b")%string).
Proof.
  intros gettext. vm_compute. reflexivity.
Qed.

(** C9, as stated, fails: the early return hands back the int [0], not
    text. *)
Lemma small_count_zero_not_text :
  small_count untranslated (NInt 0) <> Ok (VStr "0").
Proof.
  vm_compute. discriminate.
Qed.

(** C9, amended: applied to 0, or to any false value ([None], [0.0]),
    small_count returns the integer 0. *)
Theorem small_count_falsy :
  forall (gettext : string -> string) (v : pynum),
    truthy v = false ->
    small_count gettext v = Ok (VInt 0).
Proof.
  intros gettext v Hv. unfold small_count. rewrite Hv. reflexivity.
Qed.

Lemma small_count_falsy_witness :
  truthy (NInt 0) = false /\ small_count untranslated (NInt 0) = Ok (VInt 0).
Proof.
  split; [reflexivity | apply (small_count_falsy untranslated (NInt 0)); reflexivity].
Defined.

(** ** pprint on the empty string *)

(** What [py_range] answers when its three arguments fit a C long and the
    range is not longer than [sys.maxint] *)
Lemma py_range_fits :
  forall maxint start stop step,
    - maxint - 1 <= start <= maxint ->
    - maxint - 1 <= stop <= maxint ->
    - maxint - 1 <= step <= maxint ->
    step <> 0 ->
    range_len start stop step <= maxint ->
    py_range maxint start stop step
    = Ok (range_from (Z.to_nat (range_len start stop step)) start step).
Proof.
  intros maxint start stop step H1 H2 H3 Hstep Hn. unfold py_range, fits_long.
  destruct (Z.leb_spec (- maxint - 1) start); [| lia].
  destruct (Z.leb_spec start maxint); [| lia].
  destruct (Z.leb_spec (- maxint - 1) stop); [| lia].
  destruct (Z.leb_spec stop maxint); [| lia].
  destruct (Z.leb_spec (- maxint - 1) step); [| lia].
  destruct (Z.leb_spec step maxint); [| lia].
  cbn [andb negb].
  destruct (Z.eqb_spec step 0); [contradiction |].
  cbv zeta. destruct (Z.ltb_spec maxint (range_len start stop step)); [lia |].
  reflexivity.
Qed.

(** A step that does not fit a C long raises [OverflowError], whatever the
    other two arguments are. *)
Lemma py_range_step_overflow :
  forall maxint start stop step,
    step < - maxint - 1 \/ maxint < step ->
    py_range maxint start stop step = Raise OverflowError.
Proof.
  intros maxint start stop step Hstep. unfold py_range, fits_long.
  destruct (Z.leb_spec (- maxint - 1) step);
    destruct (Z.leb_spec step maxint); try lia;
    rewrite ?andb_false_r; reflexivity.
Qed.

(** C10, as stated, fails: with a break of zero the range has a zero step
    and raises before any chunk is looked at. *)
Lemma pprint_empty_zero_break_raises :
  ~ (forall break_after : Z,
       pprint maxint64 EmptyString break_after = Ok EmptyString).
Proof.
  intros H. specialize (H 0). vm_compute in H. discriminate H.
Qed.

(** C10, amended: for every non-zero break that fits a C long, positive or
    negative, pprint of the empty string is the empty string: no marker and
    no chunk.  A break of zero raises ValueError, and a break that does not
    fit a C long raises OverflowError, on the empty string as on any other. *)
Theorem pprint_empty :
  forall maxint break_after : Z,
    0 <= maxint ->
    (break_after <> 0 ->
     - maxint - 1 <= break_after <= maxint ->
     pprint maxint EmptyString break_after = Ok EmptyString) /\
    pprint maxint EmptyString 0 = Raise ValueError /\
    (break_after < - maxint - 1 \/ maxint < break_after ->
     pprint maxint EmptyString break_after = Raise OverflowError).
Proof.
  intros maxint b Hmax. unfold pprint, to_unicode.
  cbn [String.length Z.of_nat]. split; [| split].
  - intros Hb Hfit.
    assert (Hlen : range_len 0 0 b = 0).
    { unfold range_len. rewrite Z.ltb_irrefl. destruct (0 <? b); reflexivity. }
    rewrite py_range_fits by lia. rewrite Hlen. reflexivity.
  - unfold py_range, fits_long.
    destruct (Z.leb_spec (- maxint - 1) 0); [| lia].
    destruct (Z.leb_spec 0 maxint); [| lia].
    reflexivity.
  - intros Hout. rewrite py_range_step_overflow by exact Hout. reflexivity.
Qed.

Lemma pprint_empty_witness :
  (0 <= maxint64 /\ 10 <> 0 /\ - maxint64 - 1 <= 10 <= maxint64) /\
  pprint maxint64 EmptyString 10 = Ok EmptyString.
Proof.
  split; [unfold maxint64; lia |].
  apply (proj1 (pprint_empty maxint64 10 ltac:(unfold maxint64; lia)));
    unfold maxint64; lia.
Defined.

(** ** Decimal digits *)

(** The defining equation and the range of a quotient and remainder by a
    positive constant, for [lia]. *)
Ltac div_mod_facts a b :=
  pose proof (Z.div_mod a b ltac:(lia));
  pose proof (Z.mod_pos_bound a b ltac:(lia)).

Lemma digits_from_length_ge :
  forall fuel n acc,
    (String.length acc <= String.length (digits_from fuel n acc))%nat.
Proof.
  induction fuel as [| fuel IH]; intros n acc; simpl.
  - lia.
  - destruct (n <? 10).
    + simpl. lia.
    + specialize (IH (n / 10) (String (digit_char (n mod 10)) acc)).
      simpl in IH. lia.
Qed.

Lemma digits_from_length_gt :
  forall fuel n acc,
    (String.length acc < String.length (digits_from (S fuel) n acc))%nat.
Proof.
  intros fuel n acc. simpl.
  destruct (n <? 10).
  - simpl. lia.
  - pose proof (digits_from_length_ge fuel (n / 10)
                  (String (digit_char (n mod 10)) acc)) as H.
    simpl in H. lia.
Qed.

Lemma log2_fuel :
  forall n k, 2 ^ Z.of_nat k <= n -> (k <= Z.to_nat (Z.log2 n))%nat.
Proof.
  intros n k H.
  assert (Z.of_nat k <= Z.log2 n).
  { rewrite <- (Z.log2_pow2 (Z.of_nat k)) by lia. apply Z.log2_le_mono. exact H. }
  lia.
Qed.

(** [len(str(o)) > 2] says that [o] is at least 100. *)
Lemma more_than_two_digits :
  forall o, 0 <= o ->
    (2 <? Z.of_nat (String.length (str_of_int o))) = (100 <=? o).
Proof.
  intros o Ho. unfold str_of_int.
  destruct (Z.ltb_spec o 0) as [Hneg | _]; [lia |].
  unfold str_of_nonneg.
  destruct (Z.leb_spec 100 o) as [Hbig | Hsmall].
  - apply Z.ltb_lt.
    pose proof (log2_fuel o 6 ltac:(simpl; lia)) as Hf.
    destruct (Z.to_nat (Z.log2 o)) as [| [| f]]; try lia.
    cbn [digits_from].
    destruct (Z.ltb_spec o 10) as [H10 | _]; [lia |].
    destruct (Z.ltb_spec (o / 10) 10) as [H100 | _].
    { div_mod_facts o 10. lia. }
    destruct (o / 10 / 10 <? 10).
    + simpl. lia.
    + match goal with
      | |- context [digits_from f ?n ?acc] =>
          pose proof (digits_from_length_ge f n acc) as Hlen;
          simpl String.length in Hlen
      end.
      lia.
  - apply Z.ltb_ge.
    destruct (Z.ltb_spec o 10) as [H10 | H10].
    + cbn [digits_from]. destruct (Z.ltb_spec o 10); [simpl; lia | lia].
    + pose proof (log2_fuel o 3 ltac:(simpl; lia)) as Hf.
      destruct (Z.to_nat (Z.log2 o)) as [| f]; try lia.
      cbn [digits_from].
      destruct (Z.ltb_spec o 10); [lia |].
      destruct (Z.ltb_spec (o / 10) 10) as [_ | Hge]; [simpl; lia |].
      div_mod_facts o 10. lia.
Qed.

(** ** small_count on positive integers *)

Lemma float_overflow_bound_large : 1000000000000 < float_overflow_bound.
Proof. vm_compute. reflexivity. Qed.

Lemma float_of_int_small :
  forall z, Z.abs z < 1000000000000 -> float_of_int z = Ok (flit z).
Proof.
  intros z Hz. unfold float_of_int, flit.
  pose proof float_overflow_bound_large.
  destruct (Z.ltb_spec (Z.abs z) float_overflow_bound); [reflexivity | lia].
Qed.

(** One round of the loop, with the quotient and remainder of [divmod]
    written as [/] and [mod]. *)
Lemma small_count_loop_step :
  forall v x y rest,
    0 < v -> 0 < x <= 1000000000 -> is_zero (flit x) = false ->
    small_count_loop v ((x, y) :: rest)
    = if negb (v / x =? 0)
      then Ok (if (100 <=? v / x) || (v mod x =? 0)
               then VStr (str_of_int (v / x) ++ y)
               else VStr (fmt_f 1 (fdiv (flit v) (flit x)) ++ y))
      else small_count_loop v rest.
Proof.
  intros v x y rest Hv Hx Hnz. cbn [small_count_loop].
  unfold Z.div, Z.modulo.
  destruct (Z.div_eucl v x) as [o p] eqn:E.
  assert (Ho : o = v / x) by (unfold Z.div; rewrite E; reflexivity).
  destruct (Z.eqb_spec o 0) as [Hz | Hz]; cbn [negb]; [reflexivity |].
  assert (Hpos : 0 <= o) by (subst o; apply Z.div_pos; lia).
  rewrite (more_than_two_digits o Hpos).
  destruct ((100 <=? o) || (p =? 0)) eqn:Hc; [reflexivity |].
  apply orb_false_iff in Hc. destruct Hc as [Hlt _].
  apply Z.leb_gt in Hlt.
  assert (Hsmall : v < 100 * x).
  { pose proof (Z.mul_succ_div_gt v x ltac:(lia)) as Hgt. rewrite <- Ho in Hgt. nia. }
  rewrite (float_of_int_small v) by lia.
  rewrite (float_of_int_small x) by lia.
  cbn [bind]. unfold float_truediv. rewrite Hnz. reflexivity.
Qed.

(** C4: for every positive integer the compact number filter takes the first
    of the divisors 1,000,000,000, 1,000,000 and 1,000 whose integer quotient
    is not zero; it returns the quotient and the unit when the quotient has
    more than two digits or the remainder is zero, else the value divided by
    the divisor with exactly one decimal and the unit (b, m, k); when every
    quotient is zero it returns the value unchanged.  So 1500 gives "1.5k",
    150000 gives "150k" and 999 stays 999. *)
Theorem small_count_positive :
  forall (gettext : string -> string) (v : Z),
    0 < v ->
    small_count gettext (NInt v) = Ok (small_count_spec gettext v) /\
    small_count gettext (NInt 1500) = Ok (VStr ("1.5" ++ gettext "k")%string) /\
    small_count gettext (NInt 150000) = Ok (VStr ("150" ++ gettext "k")%string) /\
    small_count gettext (NInt 999) = Ok (VInt 999).
Proof.
  intros gettext v Hv. split; [| repeat split; vm_compute; reflexivity].
  unfold small_count, truthy, py_int.
  destruct (Z.eqb_spec v 0) as [E | _]; [lia |]. cbn [negb bind].
  unfold small_count_spec, first_unit, small_count_units.
  rewrite !small_count_loop_step by (try lia; vm_compute; reflexivity).
  cbn [find fst small_count_loop].
  destruct (negb (v / 1000000000 =? 0)); [reflexivity |].
  destruct (negb (v / 1000000 =? 0)); [reflexivity |].
  destruct (negb (v / 1000 =? 0)); reflexivity.
Qed.

Lemma small_count_positive_witness :
  0 < 12345 /\
  small_count untranslated (NInt 12345) = Ok (small_count_spec untranslated 12345).
Proof.
  split; [lia | apply (small_count_positive untranslated 12345); lia].
Defined.

(** ** duration *)

Lemma append_empty_r : forall s : string, (s ++ EmptyString)%string = s.
Proof.
  induction s as [| c s IH]; simpl; [reflexivity | rewrite IH; reflexivity].
Qed.

(** C5, as stated, fails: after one minute and one millisecond the leftover
    is just below a millisecond; the code writes its integer part, 0, where
    the format of the claim rounds it to 1. *)
Lemma duration_ms_not_rounded :
  ~ (forall value : pynum, duration value = duration_spec ms_rounded value).
Proof.
  intros H. specialize (H (NInt 60001)). vm_compute in H. discriminate H.
Qed.

(** C5, amended: a false input gives "0s"; otherwise the output is the
    non-zero hour and minute components and the seconds component, with no
    separator, where the seconds are written with two decimals and "s" when
    strictly greater than 1, as the integer part of [s * 1000] (cut toward
    zero, not rounded) and "ms" when not zero and not greater than 1, and
    left out when zero.  So 0 gives "0s", 500 "500ms", 1500 "1.50s" and
    60001 "1m0ms". *)
Theorem duration_components :
  (forall value : pynum, duration value = duration_spec ms_truncated value) /\
  duration (NInt 0) = Ok "0s"%string /\
  duration (NInt 500) = Ok "500ms"%string /\
  duration (NInt 1500) = Ok "1.50s"%string /\
  duration (NInt 60001) = Ok "1m0ms"%string.
Proof.
  split; [| repeat split; vm_compute; reflexivity].
  intros value. unfold duration, duration_spec.
  destruct (negb (truthy value)); [reflexivity |].
  destruct (py_float value) as [ms |]; cbn [bind]; [| reflexivity].
  destruct (float_truediv ms (flit 1000)) as [secs |]; cbn [bind]; [| reflexivity].
  assert (Hstep :
    forall v u,
      (if fgt v (flit u)
       then h <- float_truediv v (flit u) ;;
            r <- float_mod v (flit u) ;; Ok (NFloat h, r)
       else Ok (NInt 0, v)) = take_unit v u) by reflexivity.
  rewrite Hstep.
  destruct (take_unit secs 3600) as [[hours r1] |]; cbn [bind fst snd]; [| reflexivity].
  rewrite Hstep.
  destruct (take_unit r1 60) as [[minutes seconds] |]; cbn [bind fst snd]; [| reflexivity].
  unfold unit_component, seconds_component, ms_truncated, join_empty.
  cbn [truthy].
  destruct (truthy hours);
    [destruct (fmt_d hours) as [h |]; cbn [bind]; [| reflexivity] |];
    (destruct (truthy minutes);
     [destruct (fmt_d minutes) as [m |]; cbn [bind]; [| reflexivity] |]);
    (destruct (fgt seconds (flit 1));
     [| destruct (negb (is_zero seconds));
        [destruct (fmt_d_float (fmul seconds (flit 1000))) as [d |];
         cbn [bind]; [| reflexivity] |]]);
    cbn [bind app String.concat append];
    rewrite ?append_empty_r; reflexivity.
Qed.

(** ** percent *)

(** [int(x)] of a double is its exact value cut toward zero. *)
Lemma int_of_float_truncates :
  forall f : spec_float,
    int_of_float f
    = match f, float_value f with
      | _, Some q => Ok (Qtruncate q)
      | S754_nan, None => Raise ValueError
      | _, None => Raise OverflowError
      end.
Proof.
  intros [s | s | | s m e]; try reflexivity.
  unfold int_of_float, float_value, Qtruncate.
  destruct e as [| p | p].
  - cbn [Qnum Qden inject_Z]. rewrite Z.shiftl_0_r, Z.pow_0_r, Z.mul_1_r, Z.quot_1_r.
    destruct s; reflexivity.
  - cbn [Qnum Qden inject_Z]. rewrite Z.shiftl_mul_pow2 by lia. rewrite Z.quot_1_r.
    destruct s; [| reflexivity].
    rewrite <- Z.mul_opp_l. reflexivity.
  - cbn [Qnum Qden]. rewrite Z.shiftr_div_pow2 by lia.
    rewrite Pos2Z.inj_pow.
    assert (Hd : 0 < 2 ^ Z.pos p) by (apply Z.pow_pos_nonneg; lia).
    destruct s.
    + change (Z.neg m) with (- Z.pos m).
      rewrite Z.quot_opp_l by lia.
      rewrite Z.quot_div_nonneg by lia. reflexivity.
    + rewrite Z.quot_div_nonneg by lia. reflexivity.
Qed.

(** Cutting toward zero is the floor on what is not negative. *)
Lemma Qtruncate_floor_nonneg :
  forall q : Q, (0 <= q)%Q -> Qtruncate q = Qfloor q.
Proof.
  intros [n d] Hq. unfold Qtruncate, Qfloor. cbn [Qnum Qden].
  unfold Qle in Hq. cbn [Qnum Qden] in Hq.
  apply Z.quot_div_nonneg; lia.
Qed.

(** C7, as stated, fails: 29 / 100.0 * 100 is the double just below 29, so
    the code answers 28 where the floor of the exact quotient is 29. *)
Lemma percent_not_exact_floor :
  ~ (forall value total : Z,
       value <> 0 -> total <> 0 ->
       percent (NInt value) (NInt total) = Ok (percent_floor value total)).
Proof.
  intros H. specialize (H 29 100 ltac:(lia) ltac:(lia)).
  vm_compute in H. discriminate H.
Qed.

(** On a negative product, cutting toward zero is not the floor either. *)
Lemma percent_negative_not_floor :
  percent (NInt (-1)) (NInt 3) = Ok (-33) /\
  (x <- percent_product (NInt (-1)) (NInt 3) ;;
   Ok (option_map Qfloor (float_value x))) = Ok (Some (-34)).
Proof.
  split; vm_compute; reflexivity.
Qed.

(** C7, amended: percent returns 0 when value or total is false; otherwise
    it is the double-precision product int(value) / float(total) * 100 cut
    toward zero to an integer.  percent(0, 100) = 0, percent(50, 200) = 25
    and percent(5, 0) = 0; the rounding of the product makes
    percent(29, 100) = 28. *)
Theorem percent_truncated_product :
  (forall value total : pynum, percent value total = percent_spec value total) /\
  percent (NInt 0) (NInt 100) = Ok 0 /\
  percent (NInt 50) (NInt 200) = Ok 25 /\
  percent (NInt 5) (NInt 0) = Ok 0 /\
  percent (NInt 29) (NInt 100) = Ok 28.
Proof.
  split; [| repeat split; vm_compute; reflexivity].
  intros value total. unfold percent, percent_spec, percent_product.
  rewrite negb_andb.
  destruct (negb (truthy value) || negb (truthy total)); [reflexivity |].
  destruct (py_int value) as [n |]; cbn [bind]; [| reflexivity].
  destruct (py_float total) as [b |]; cbn [bind]; [| reflexivity].
  destruct (float_of_int n) as [a |]; cbn [bind]; [| reflexivity].
  destruct (float_truediv a b) as [q |]; cbn [bind]; [| reflexivity].
  apply int_of_float_truncates.
Qed.

(** ** timesince: the date fallback *)

(** C6: a timezone-aware timestamp strictly more than 5 days before the
    reference time is answered by its date alone, with no time of day; a
    false input is answered by the translation of "never". *)
Theorem timesince_date_fallback :
  forall (library : datetime -> datetime -> string)
    (gettext : string -> string) (clock : datetime) (now : option datetime),
    (forall value : datetime,
        5 * us_per_day < instant (reference_time clock now) - instant value ->
        timesince library gettext clock (Some value) now = VDate (dt_date value)) /\
    timesince library gettext clock None now = VStr (gettext "never"%string).
Proof.
  intros library gettext clock now. split; [| reflexivity].
  intros value Hold. unfold timesince, reference_time in *.
  destruct (Z.ltb_spec (instant value)
              (instant match now with None => clock | Some n => n end
               - 5 * us_per_day)) as [_ | Hge]; [reflexivity | lia].
Qed.

Lemma timesince_date_fallback_witness :
  5 * us_per_day
  < instant (reference_time (utc 2014 1 7 0 0 0) None) - instant (utc 2014 1 1 0 0 0) /\
  timesince (django_timesince Django_1_6) untranslated (utc 2014 1 7 0 0 0)
    (Some (utc 2014 1 1 0 0 0)) None
  = VDate (mkdate 2014 1 1).
Proof.
  split; [vm_compute; reflexivity |].
  apply (proj1 (timesince_date_fallback (django_timesince Django_1_6) untranslated
                  (utc 2014 1 7 0 0 0) None)
           (utc 2014 1 1 0 0 0)).
  vm_compute. reflexivity.
Defined.

(** ** pprint: chunks *)

Lemma take_length :
  forall n s, String.length (take n s) = Nat.min n (String.length s).
Proof.
  induction n as [| n IH]; intros [| c s]; simpl; try reflexivity.
  rewrite IH. reflexivity.
Qed.

Lemma drop_length :
  forall n s, String.length (drop n s) = (String.length s - n)%nat.
Proof.
  induction n as [| n IH]; intros [| c s]; simpl; try reflexivity.
  apply IH.
Qed.

Lemma take_drop : forall n s, (take n s ++ drop n s)%string = s.
Proof.
  induction n as [| n IH]; intros [| c s]; simpl; try reflexivity.
  rewrite IH. reflexivity.
Qed.

Lemma drop_drop : forall n m s, drop m (drop n s) = drop (n + m) s.
Proof.
  induction n as [| n IH]; intros m s; simpl.
  - reflexivity.
  - destruct s as [| c s]; [destruct m; reflexivity | apply IH].
Qed.

(** Taking more than there is takes everything. *)
Lemma take_beyond :
  forall n m s,
    (String.length s <= n)%nat -> (String.length s <= m)%nat ->
    take n s = take m s.
Proof.
  intros n m s. revert n m.
  induction s as [| c s IH]; intros n m Hn Hm.
  - destruct n, m; reflexivity.
  - destruct n as [| n], m as [| m]; simpl in *; try lia.
    rewrite (IH n m) by lia. reflexivity.
Qed.

(** A slice of [size] characters that starts inside the text *)
Lemma py_slice_take_drop :
  forall s i size,
    0 <= i <= Z.of_nat (String.length s) -> 0 < size ->
    py_slice s i (i + size) = take (Z.to_nat size) (drop (Z.to_nat i) s).
Proof.
  intros s i size Hi Hsize. unfold py_slice, slice_bound.
  destruct (Z.ltb_spec i 0); [lia |].
  destruct (Z.ltb_spec (i + size) 0); [lia |].
  set (len := Z.of_nat (String.length s)) in *.
  replace (Z.max 0 (Z.min len i)) with i by lia.
  destruct (Z.le_gt_cases (i + size) len) as [Hin | Hout].
  - replace (Z.max 0 (Z.min len (i + size)) - i) with size by lia. reflexivity.
  - apply take_beyond; rewrite drop_length; subst len; lia.
Qed.

Lemma map_slices_chunks :
  forall (f : string -> string) s size n i,
    0 < size -> 0 <= i ->
    (n = O \/ i + (Z.of_nat n - 1) * size <= Z.of_nat (String.length s)) ->
    map (fun j => f (py_slice s j (j + size))) (range_from n i size)
    = map f (chunks_of n (Z.to_nat size) (drop (Z.to_nat i) s)).
Proof.
  intros f s size n. induction n as [| n IH]; intros i Hsize Hi Hfit.
  - reflexivity.
  - destruct Hfit as [Hfit | Hfit]; [discriminate |].
    cbn [range_from chunks_of map].
    rewrite py_slice_take_drop by nia.
    rewrite drop_drop, <- Z2Nat.inj_add by lia.
    rewrite <- IH; [reflexivity | lia | lia |].
    destruct n as [| n]; [left; reflexivity | right; nia].
Qed.

Lemma concat_empty_cons :
  forall h t,
    String.concat EmptyString (h :: t) = (h ++ String.concat EmptyString t)%string.
Proof.
  intros h [| x t]; cbn [String.concat].
  - rewrite append_empty_r. reflexivity.
  - reflexivity.
Qed.

Lemma chunks_of_concat :
  forall n size s,
    (String.length s <= n * size)%nat ->
    String.concat EmptyString (chunks_of n size s) = s.
Proof.
  induction n as [| n IH]; intros size s Hlen.
  - destruct s; [reflexivity | simpl in Hlen; lia].
  - cbn [chunks_of]. rewrite concat_empty_cons, IH.
    + apply take_drop.
    + rewrite drop_length. simpl in Hlen. lia.
Qed.

Lemma chunks_of_lengths :
  forall n size s,
    (0 < size)%nat ->
    (n = O \/ (n - 1) * size < String.length s)%nat ->
    Forall (fun c => (1 <= String.length c <= size)%nat) (chunks_of n size s).
Proof.
  induction n as [| n IH]; intros size s Hsize Hfit.
  - constructor.
  - destruct Hfit as [Hfit | Hfit]; [discriminate |].
    cbn [chunks_of]. constructor.
    + rewrite take_length. lia.
    + apply IH; [exact Hsize |].
      destruct n as [| n]; [left; reflexivity | right].
      rewrite drop_length. simpl in *. nia.
Qed.

Lemma chunk_count_range_len :
  forall len size,
    0 <= len -> 0 < size ->
    range_len 0 len size = (len + size - 1) / size.
Proof.
  intros len size Hlen Hsize. unfold range_len.
  destruct (Z.ltb_spec 0 size); [| lia].
  destruct (Z.ltb_spec 0 len).
  - replace (len + size - 1) with (len - 0 - 1 + 1 * size) by lia.
    rewrite Z.div_add by lia. reflexivity.
  - replace len with 0 by lia. symmetry. apply Z.div_small. lia.
Qed.

(** The number of chunks, against the length of the text *)
Lemma chunk_count_bounds :
  forall len size,
    0 <= len -> 0 < size ->
    let k := (len + size - 1) / size in
    0 <= k /\ len <= k * size /\ (k = 0 \/ (k - 1) * size < len).
Proof.
  intros len size Hlen Hsize k. subst k.
  div_mod_facts (len + size - 1) size.
  assert (0 <= (len + size - 1) / size) by (apply Z.div_pos; lia).
  split; [assumption |]. split; nia.
Qed.

(** With a positive break that fits a C long, the list comprehension of
    pprint visits the chunks of the text in order. *)
Lemma pprint_chunks :
  forall (maxint : Z) (s : string) (break_after : Z),
    0 < break_after <= maxint ->
    Z.of_nat (String.length s) <= maxint ->
    pprint maxint s break_after
    = Ok (String.concat span_marker (map escape (chunks break_after s))).
Proof.
  intros maxint s b Hb Hlen.
  pose proof (chunk_count_bounds (Z.of_nat (String.length s)) b
                ltac:(lia) ltac:(lia)) as Hk.
  cbv zeta in Hk. destruct Hk as (Hk0 & Hcover & Hlast).
  unfold chunks, pprint, to_unicode, mark_safe.
  rewrite py_range_fits; try lia.
  - cbn [bind]. rewrite chunk_count_range_len by lia.
    set (k := (Z.of_nat (String.length s) + b - 1) / b) in *.
    rewrite (map_slices_chunks escape s b (Z.to_nat k) 0) by
      (first [lia | destruct Hlast; [left | right]; lia]).
    reflexivity.
  - rewrite chunk_count_range_len by lia.
    destruct Hlast as [-> | Hlast]; [lia | nia].
Qed.

(** C8, as stated, fails: the break is the step of an [xrange], and a
    positive break that does not fit a C long raises OverflowError instead
    of giving chunks. *)
Lemma pprint_huge_break_raises :
  ~ (forall (s : string) (break_after : Z),
       0 < break_after ->
       pprint maxint64 s break_after
       = Ok (String.concat span_marker (map escape (chunks break_after s)))).
Proof.
  intros H. specialize (H "abc"%string (maxint64 + 1) ltac:(unfold maxint64; lia)).
  assert (E : pprint maxint64 "abc" (maxint64 + 1) = Raise OverflowError)
    by (vm_compute; reflexivity).
  rewrite E in H. discriminate H.
Qed.

(** C8, amended: for every string and every positive break that fits a C
    long, the soft-wrap helper cuts the string into consecutive chunks of at
    most that many characters, HTML-escapes each chunk and joins them with
    the break marker; the chunks put together again are the string.  The 12
    characters "abcdefghijkl" with a break of 5 give exactly the 3 chunks
    "abcde", "fghij", "kl".  A break above [sys.maxint] raises
    OverflowError. *)
Theorem pprint_soft_wrap :
  forall (maxint : Z) (s : string) (break_after : Z),
    Z.of_nat (String.length s) <= maxint ->
    (0 < break_after <= maxint ->
     pprint maxint s break_after
     = Ok (String.concat span_marker (map escape (chunks break_after s))) /\
     String.concat EmptyString (chunks break_after s) = s /\
     Forall (fun c => (1 <= String.length c <= Z.to_nat break_after)%nat)
       (chunks break_after s)) /\
    (maxint < break_after -> pprint maxint s break_after = Raise OverflowError) /\
    chunks 5 "abcdefghijkl" = ["abcde"; "fghij"; "kl"]%string /\
    (12 <= maxint ->
     pprint maxint "abcdefghijkl" 5
     = Ok "abcde<span></span>fghij<span></span>kl"%string).
Proof.
  intros maxint s b Hlen.
  split; [| split; [| split; [vm_compute; reflexivity |]]].
  - intros Hb.
    pose proof (chunk_count_bounds (Z.of_nat (String.length s)) b
                  ltac:(lia) ltac:(lia)) as Hk.
    cbv zeta in Hk. destruct Hk as (Hk0 & Hcover & Hlast).
    split; [apply pprint_chunks; assumption |].
    unfold chunks.
    set (k := (Z.of_nat (String.length s) + b - 1) / b) in *.
    split.
    + apply chunks_of_concat.
      apply Nat2Z.inj_le. rewrite Nat2Z.inj_mul, !Z2Nat.id by lia. exact Hcover.
    + apply chunks_of_lengths; [lia |].
      destruct (Z.eq_dec k 0) as [Hz | Hnz]; [left; lia | right].
      destruct Hlast as [Hz | Hlt]; [contradiction |].
      apply Nat2Z.inj_lt.
      rewrite Nat2Z.inj_mul, Nat2Z.inj_sub, !Z2Nat.id by lia. exact Hlt.
  - intros Hout. unfold pprint, to_unicode.
    rewrite py_range_step_overflow by (right; exact Hout). reflexivity.
  - intros Hmax. rewrite pprint_chunks by (cbn [String.length Z.of_nat]; lia).
    vm_compute. reflexivity.
Qed.

Lemma pprint_soft_wrap_witness :
  (Z.of_nat (String.length "a<b>&c") <= maxint64 /\ 0 < 3 <= maxint64) /\
  pprint maxint64 "a<b>&c" 3 = Ok "a&lt;b<span></span>&gt;&amp;c"%string.
Proof.
  assert (Hlen : Z.of_nat (String.length "a<b>&c") <= maxint64)
    by (vm_compute; discriminate).
  assert (Hb : 0 < 3 <= maxint64) by (unfold maxint64; lia).
  split; [split; assumption |].
  rewrite (proj1 (proj1 (pprint_soft_wrap maxint64 "a<b>&c" 3 Hlen) Hb)).
  vm_compute. reflexivity.
Defined.

(** ** timesince: the relative phrase *)

Lemma replace_char_absent :
  forall old new s, has_char old s = false -> replace_char old new s = s.
Proof.
  intros old new. induction s as [| c s IH]; intros H; [reflexivity |].
  cbn [has_char] in H. apply orb_false_iff in H. destruct H as [Hc Hs].
  cbn [replace_char]. rewrite Hc, (IH Hs). reflexivity.
Qed.

Lemma append_assoc :
  forall a b c : string, ((a ++ b) ++ c)%string = (a ++ b ++ c)%string.
Proof.
  induction a as [| x a IH]; intros b c; simpl; [reflexivity |].
  rewrite IH. reflexivity.
Qed.

Lemma has_char_app :
  forall c a b, has_char c (a ++ b) = has_char c a || has_char c b.
Proof.
  induction a as [| x a IH]; intros b; simpl; [reflexivity |].
  rewrite IH, orb_assoc. reflexivity.
Qed.

Lemma only_digits_has_char :
  forall c s, is_digit c = false -> only_digits s = true -> has_char c s = false.
Proof.
  intros c. induction s as [| a s IH]; intros Hc Hs; simpl in *; [reflexivity |].
  apply andb_true_iff in Hs. destruct Hs as [Ha Hs].
  rewrite (IH Hc Hs), orb_false_r.
  destruct (Ascii.eqb_spec a c) as [E | _]; [congruence | reflexivity].
Qed.

Lemma digit_char_is_digit :
  forall n, is_digit (digit_char (n mod 10)) = true.
Proof.
  intros n. pose proof (Z.mod_pos_bound n 10 ltac:(lia)) as H.
  assert (E : n mod 10 = 0 \/ n mod 10 = 1 \/ n mod 10 = 2 \/ n mod 10 = 3 \/
              n mod 10 = 4 \/ n mod 10 = 5 \/ n mod 10 = 6 \/ n mod 10 = 7 \/
              n mod 10 = 8 \/ n mod 10 = 9) by lia.
  repeat (destruct E as [E | E]; [rewrite E; reflexivity |]).
  rewrite E. reflexivity.
Qed.

Lemma digits_from_only_digits :
  forall fuel n acc,
    only_digits acc = true -> only_digits (digits_from fuel n acc) = true.
Proof.
  induction fuel as [| fuel IH]; intros n acc Hacc; cbn [digits_from];
    [exact Hacc |].
  assert (Hnext : only_digits (String (digit_char (n mod 10)) acc) = true).
  { cbn [only_digits]. rewrite digit_char_is_digit, Hacc. reflexivity. }
  destruct (n <? 10); [exact Hnext | apply IH; exact Hnext].
Qed.

(** A non-negative count is written with digits only, and at least one. *)
Lemma str_of_int_digits :
  forall n, 0 <= n ->
    only_digits (str_of_int n) = true /\ str_of_int n <> EmptyString.
Proof.
  intros n Hn. unfold str_of_int.
  destruct (Z.ltb_spec n 0); [lia |]. unfold str_of_nonneg. split.
  - apply digits_from_only_digits. reflexivity.
  - intros E.
    pose proof (digits_from_length_gt (Z.to_nat (Z.log2 n)) n EmptyString) as H1.
    rewrite E in H1. simpl in H1. lia.
Qed.

Lemma split_on_app_sep :
  forall sep a rest,
    has_char sep a = false ->
    split_on sep (a ++ String sep rest) = a :: split_on sep rest.
Proof.
  intros sep. induction a as [| x a IH]; intros rest Ha; simpl in *.
  - rewrite Ascii.eqb_refl. reflexivity.
  - apply orb_false_iff in Ha. destruct Ha as [Hx Ha].
    rewrite Hx, (IH rest Ha). reflexivity.
Qed.

Lemma split_on_absent :
  forall sep a, has_char sep a = false -> split_on sep a = [a].
Proof.
  intros sep. induction a as [| x a IH]; intros Ha; simpl in *; [reflexivity |].
  apply orb_false_iff in Ha. destruct Ha as [Hx Ha].
  rewrite Hx, (IH Ha). reflexivity.
Qed.

Lemma lstrip_absent :
  forall c s, has_char c s = false -> lstrip c s = s.
Proof.
  intros c [| a s] H; simpl in *; [reflexivity |].
  apply orb_false_iff in H. destruct H as [Ha _]. rewrite Ha. reflexivity.
Qed.

Lemma lstrip_app_absent :
  forall c s t, s <> EmptyString -> has_char c s = false ->
    lstrip c (s ++ t) = (s ++ t)%string.
Proof.
  intros c [| a s] t Hs H; simpl in *; [congruence |].
  apply orb_false_iff in H. destruct H as [Ha _]. rewrite Ha. reflexivity.
Qed.

Lemma rstrip_absent :
  forall c s, has_char c s = false -> rstrip c s = s.
Proof.
  intros c. induction s as [| a s IH]; intros H; simpl in *; [reflexivity |].
  apply orb_false_iff in H. destruct H as [Ha Hs].
  rewrite (IH Hs), Ha. destruct s; reflexivity.
Qed.

Lemma rstrip_trailing :
  forall c s, has_char c s = false ->
    rstrip c (s ++ String c EmptyString) = s.
Proof.
  intros c. induction s as [| a s IH]; intros H; simpl in *.
  - rewrite Ascii.eqb_refl. reflexivity.
  - apply orb_false_iff in H. destruct H as [Ha Hs].
    rewrite (IH Hs), Ha. destruct s; reflexivity.
Qed.

(** The first two words of a delta phrase, joined again and stripped of the
    comma: the count and the name of its first unit. *)
Lemma first_two_words :
  forall num name tail,
    only_digits num = true -> num <> EmptyString ->
    has_char " " name = false -> has_char "," name = false ->
    (tail = EmptyString \/ exists t, tail = String "," (String " " t)) ->
    strip ","
      (String.concat " " (firstn 2 (split_on " " (num ++ " " ++ name ++ tail))))
    = (num ++ " " ++ name)%string.
Proof.
  intros num name tail Hdig Hne Hsp Hco Htail.
  assert (Hnsp : has_char " " num = false)
    by (apply only_digits_has_char; [reflexivity | exact Hdig]).
  assert (Hnco : has_char "," num = false)
    by (apply only_digits_has_char; [reflexivity | exact Hdig]).
  assert (Hw : has_char "," (num ++ " " ++ name) = false).
  { rewrite has_char_app, Hnco. simpl. exact Hco. }
  change (num ++ " " ++ name ++ tail)%string
    with (num ++ String " " (name ++ tail))%string.
  rewrite split_on_app_sep by exact Hnsp.
  destruct Htail as [-> | [t ->]].
  - rewrite append_empty_r, split_on_absent by exact Hsp.
    cbn [firstn String.concat]. unfold strip.
    rewrite lstrip_absent, rstrip_absent by exact Hw. reflexivity.
  - replace (name ++ String "," (String " " t))%string
      with ((name ++ ",") ++ String " " t)%string
      by (rewrite append_assoc; reflexivity).
    rewrite split_on_app_sep
      by (rewrite has_char_app, Hsp; reflexivity).
    cbn [firstn String.concat]. unfold strip.
    replace (num ++ " " ++ name ++ ",")%string
      with ((num ++ " " ++ name) ++ ",")%string
      by (rewrite !append_assoc; reflexivity).
    rewrite lstrip_app_absent; [apply rstrip_trailing; exact Hw | | exact Hw].
    destruct num; [congruence | discriminate].
Qed.

Lemma replace_char_app :
  forall old new s t,
    replace_char old new (s ++ t)
    = (replace_char old new s ++ replace_char old new t)%string.
Proof.
  intros old new. induction s as [| a s IH]; intros t; [reflexivity |].
  cbn [append replace_char]. rewrite IH. reflexivity.
Qed.

Lemma rstrip_app_absent :
  forall c s t, t <> EmptyString -> has_char c t = false ->
    rstrip c (s ++ t) = (s ++ t)%string.
Proof.
  intros c s t Ht Hc. induction s as [| a s IH].
  - apply rstrip_absent. exact Hc.
  - cbn [append rstrip]. rewrite IH.
    destruct (s ++ t)%string eqn:E; [| reflexivity].
    destruct s; [cbn [append] in E; congruence | discriminate E].
Qed.

(** A count with its unit, in between a gap that is neither a space nor a
    comma, is one word with no comma in it. *)
Lemma counted_one_word :
  forall gap name count,
    0 <= count ->
    Ascii.eqb gap " " = false -> Ascii.eqb gap "," = false ->
    has_char " " (fst name) = false -> has_char "," (fst name) = false ->
    has_char " " (snd name) = false -> has_char "," (snd name) = false ->
    has_char " " (counted gap name count) = false /\
    has_char "," (counted gap name count) = false /\
    counted gap name count <> EmptyString.
Proof.
  intros gap name count Hc Hg1 Hg2 Hs1 Hc1 Hs2 Hc2.
  destruct (str_of_int_digits count Hc) as [Hdig Hne].
  unfold counted. rewrite !has_char_app. cbn [has_char].
  rewrite (only_digits_has_char " " _ eq_refl Hdig),
    (only_digits_has_char "," _ eq_refl Hdig), Hg1, Hg2.
  destruct (count =? 1); rewrite ?Hs1, ?Hc1, ?Hs2, ?Hc2;
    (split; [reflexivity | split; [reflexivity |]]);
    destruct (str_of_int count); try congruence; discriminate.
Qed.

(** The library's count and unit: the digits, the gap of the release, the
    name of the unit *)
Lemma count_unit_counted :
  forall release name count,
    0 <= count ->
    has_char " " (fst name) = false -> has_char " " (snd name) = false ->
    count_unit release name count = counted (unit_gap release) name count.
Proof.
  intros release name count Hc Hs1 Hs2.
  destruct (str_of_int_digits count Hc) as [Hdig _].
  unfold count_unit, counted. destruct release; [reflexivity |].
  cbn [avoid_wrapping unit_gap]. rewrite replace_char_app.
  rewrite (replace_char_absent " " nbsp (str_of_int count))
    by (apply only_digits_has_char; [reflexivity | exact Hdig]).
  cbn [append replace_char]. change (Ascii.eqb " " " ") with true. cbv iota.
  rewrite replace_char_absent by (destruct (count =? 1); assumption).
  reflexivity.
Qed.

(** With a plain space between count and unit, the first two words of a
    delta phrase, joined again and stripped of the comma, are the count and
    the name of its first unit. *)
Lemma first_two_words_counted :
  forall name count tail,
    0 <= count ->
    has_char " " (fst name) = false -> has_char "," (fst name) = false ->
    has_char " " (snd name) = false -> has_char "," (snd name) = false ->
    (tail = EmptyString \/ exists t, tail = String "," (String " " t)) ->
    strip ","
      (String.concat " " (firstn 2 (split_on " " (counted " " name count ++ tail))))
    = counted " " name count.
Proof.
  intros name count tail Hc Hs1 Hc1 Hs2 Hc2 Htail.
  destruct (str_of_int_digits count Hc) as [Hdig Hne].
  unfold counted. rewrite append_assoc.
  destruct (count =? 1); apply first_two_words; assumption.
Qed.

(** One word with no comma is kept as it is. *)
Lemma one_word_kept :
  forall w,
    has_char " " w = false -> has_char "," w = false ->
    strip "," (String.concat " " (firstn 2 (split_on " " w))) = w.
Proof.
  intros w Hs Hc. rewrite split_on_absent by exact Hs.
  cbn [firstn String.concat]. unfold strip.
  rewrite lstrip_absent, rstrip_absent by exact Hc. reflexivity.
Qed.

(** Two words with a comma and a space in between are both kept, and the
    comma with them: it is not at an end of the text. *)
Lemma two_words_kept :
  forall w1 w2,
    has_char " " w1 = false -> has_char "," w1 = false -> w1 <> EmptyString ->
    has_char " " w2 = false -> has_char "," w2 = false -> w2 <> EmptyString ->
    strip "," (String.concat " " (firstn 2 (split_on " " (w1 ++ ", " ++ w2))))
    = (w1 ++ ", " ++ w2)%string.
Proof.
  intros w1 w2 Hs1 Hc1 Hn1 Hs2 Hc2 Hn2.
  replace (w1 ++ ", " ++ w2)%string with ((w1 ++ ",") ++ String " " w2)%string
    by (rewrite append_assoc; reflexivity).
  rewrite split_on_app_sep by (rewrite has_char_app, Hs1; reflexivity).
  rewrite split_on_absent by exact Hs2.
  cbn [firstn String.concat]. unfold strip.
  change ((w1 ++ ",") ++ " " ++ w2)%string
    with ((w1 ++ ",") ++ String " " w2)%string.
  rewrite append_assoc.
  rewrite lstrip_app_absent by assumption.
  change (rstrip "," (w1 ++ ", " ++ w2) = (w1 ++ ", " ++ w2)%string).
  rewrite <- append_assoc.
  apply rstrip_app_absent; assumption.
Qed.

Lemma timesince_chunks_values :
  timesince_chunks
  = [ (31536000, ("year", "years")); (2592000, ("month", "months"));
      (604800, ("week", "weeks")); (86400, ("day", "days"));
      (3600, ("hour", "hours")); (60, ("minute", "minutes")) ]%string.
Proof. reflexivity. Qed.

(** The leading unit is one of days, hours and minutes, with a count that
    is not negative. *)
Lemma leading_unit_counted :
  forall gap since,
    exists name count,
      leading_unit gap since = counted gap name count /\
      0 <= count /\
      has_char " " (fst name) = false /\ has_char "," (fst name) = false /\
      has_char " " (snd name) = false /\ has_char "," (snd name) = false.
Proof.
  intros gap since. unfold leading_unit.
  destruct (Z.leb_spec 86400 since);
    [| destruct (Z.leb_spec 3600 since); [| destruct (Z.leb_spec 60 since)]];
    eexists; eexists; (split; [reflexivity |]);
    (split; [first [apply Z.div_pos; lia | lia] |]);
    repeat split; reflexivity.
Qed.

(** The second unit is missing, or a comma, a space, and hours or minutes
    with a count that is not negative. *)
Lemma second_unit_counted :
  forall gap since,
    second_unit gap since = EmptyString \/
    exists name count,
      second_unit gap since = (", " ++ counted gap name count)%string /\
      0 <= count /\
      has_char " " (fst name) = false /\ has_char "," (fst name) = false /\
      has_char " " (snd name) = false /\ has_char "," (snd name) = false.
Proof.
  intros gap since. unfold second_unit.
  destruct (86400 <=? since).
  - destruct (since mod 86400 / 3600 =? 0); [left; reflexivity | right].
    eexists; eexists; split; [reflexivity |].
    split; [apply Z.div_pos; [apply Z.mod_pos_bound |]; lia |].
    repeat split; reflexivity.
  - destruct (3600 <=? since); [| left; reflexivity].
    destruct (since mod 3600 / 60 =? 0); [left; reflexivity | right].
    eexists; eexists; split; [reflexivity |].
    split; [apply Z.div_pos; [apply Z.mod_pos_bound |]; lia |].
    repeat split; reflexivity.
Qed.

(** Up to five days, the library's phrase is the leading unit and, when it
    is not zero, the next smaller one. *)
Lemma delta_within_five_days :
  forall release since,
    since <= 432000 ->
    (if since <=? 0 then avoid_wrapping release "0 minutes"
     else timesince_scan release since timesince_chunks)
    = delta_phrase (unit_gap release) since.
Proof.
  intros release since Hmax. unfold delta_phrase, leading_unit, second_unit.
  destruct (Z.leb_spec since 0) as [Hle | Hpos].
  - destruct (Z.leb_spec 86400 since); [lia |].
    destruct (Z.leb_spec 3600 since); [lia |].
    destruct (Z.leb_spec 60 since); [lia |].
    destruct release; vm_compute; reflexivity.
  - rewrite timesince_chunks_values. cbn [timesince_scan].
    rewrite (Z.div_small since 31536000), (Z.div_small since 2592000),
      (Z.div_small since 604800) by lia.
    cbn [Z.eqb negb].
    destruct (Z.leb_spec 86400 since) as [Hd | Hd].
    { assert (Hcount : 0 < since / 86400) by (apply Z.div_str_pos; lia).
      destruct (Z.eqb_spec (since / 86400) 0); [lia |]. cbn [negb].
      rewrite <- Z.mod_eq by lia.
      assert (H2 : 0 <= since mod 86400 / 3600)
        by (apply Z.div_pos; [apply Z.mod_pos_bound |]; lia).
      rewrite !count_unit_counted by (first [lia | reflexivity]).
      destruct (since mod 86400 / 3600 =? 0); cbn [negb];
        [rewrite append_empty_r |]; reflexivity. }
    rewrite (Z.div_small since 86400) by lia. cbn [Z.eqb negb].
    destruct (Z.leb_spec 3600 since) as [Hh | Hh].
    { assert (Hcount : 0 < since / 3600) by (apply Z.div_str_pos; lia).
      destruct (Z.eqb_spec (since / 3600) 0); [lia |]. cbn [negb].
      rewrite <- Z.mod_eq by lia.
      assert (H2 : 0 <= since mod 3600 / 60)
        by (apply Z.div_pos; [apply Z.mod_pos_bound |]; lia).
      rewrite !count_unit_counted by (first [lia | reflexivity]).
      destruct (since mod 3600 / 60 =? 0); cbn [negb];
        [rewrite append_empty_r |]; reflexivity. }
    rewrite (Z.div_small since 3600) by lia. cbn [Z.eqb negb].
    rewrite append_empty_r.
    destruct (Z.leb_spec 60 since) as [Hm | Hm].
    + rewrite count_unit_counted
        by (first [apply Z.div_pos; lia | reflexivity]).
      reflexivity.
    + rewrite (Z.div_small since 60) by lia.
      destruct release; vm_compute; reflexivity.
Qed.

(** What line 163 of the filter keeps of the library's phrase *)
Lemma shown_phrase_kept :
  forall release since,
    strip ","
      (String.concat " "
         (firstn 2 (split_on " " (delta_phrase (unit_gap release) since))))
    = shown_phrase release since.
Proof.
  intros release since. unfold delta_phrase.
  destruct release; cbn [unit_gap shown_phrase].
  - destruct (leading_unit_counted " " since)
      as (name & count & -> & Hc & Hs1 & Hc1 & Hs2 & Hc2).
    apply first_two_words_counted; try assumption.
    destruct (second_unit_counted " " since) as [-> | (n2 & c2 & -> & _)];
      [left; reflexivity | right; eexists; reflexivity].
  - unfold delta_phrase.
    destruct (leading_unit_counted nbsp since)
      as (name & count & -> & Hc & Hs1 & Hc1 & Hs2 & Hc2).
    destruct (counted_one_word nbsp name count Hc eq_refl eq_refl Hs1 Hc1 Hs2 Hc2)
      as (Hw1 & Hw2 & Hw3).
    destruct (second_unit_counted nbsp since)
      as [-> | (n2 & c2 & -> & Hc' & Hs1' & Hc1' & Hs2' & Hc2')].
    + rewrite append_empty_r. apply one_word_kept; assumption.
    + destruct (counted_one_word nbsp n2 c2 Hc' eq_refl eq_refl Hs1' Hc1' Hs2' Hc2')
        as (Hv1 & Hv2 & Hv3).
      apply two_words_kept; assumption.
Qed.

(** Less than five days back, the elapsed seconds are at most 432000. *)
Lemma elapsed_within_five_days :
  forall value now,
    instant now - 5 * us_per_day <= instant value ->
    elapsed_seconds value now <= 432000.
Proof.
  intros value now H. unfold elapsed_seconds, us_per_day, us_per_second in *.
  div_mod_facts (instant now - instant value) 1000000. lia.
Qed.

(** What the filter answers for a timestamp at most five days old *)
Lemma timesince_within_five_days :
  forall release gettext clock value now,
    instant (reference_time clock now) - 5 * us_per_day <= instant value ->
    timesince (django_timesince release) gettext clock (Some value) now
    = let phrase :=
        shown_phrase release (elapsed_seconds value (reference_time clock now)) in
      if String.eqb phrase (gettext "0 minutes"%string)
      then VStr (gettext "just now"%string)
      else if String.eqb phrase (gettext "1 day"%string)
      then VStr (gettext "yesterday"%string)
      else VStr (phrase ++ gettext " ago"%string).
Proof.
  intros release gettext clock value now Hin.
  unfold timesince. fold (reference_time clock now).
  set (ref := reference_time clock now) in *.
  destruct (Z.ltb_spec (instant value) (instant ref - 5 * us_per_day)); [lia |].
  unfold django_timesince.
  rewrite delta_within_five_days by (apply elapsed_within_five_days; exact Hin).
  rewrite shown_phrase_kept. reflexivity.
Qed.

(** C3, as stated, fails, whichever release of the library is installed.
    For 3 days and 2 hours the delta is "3 days, 2 hours"; with a plain
    space between count and unit the filter keeps its first two words,
    "3 days", and with a no-break space it keeps the whole phrase and the
    comma in it.  Neither is the phrase of the two units without the
    comma. *)
Lemma timesince_not_two_units :
  (~ (forall (clock value : datetime) (now : option datetime),
        instant (reference_time clock now) - 5 * us_per_day <= instant value ->
        two_unit_phrase Django_1_5 value (reference_time clock now)
        <> "0 minutes"%string ->
        two_unit_phrase Django_1_5 value (reference_time clock now)
        <> "1 day"%string ->
        timesince (django_timesince Django_1_5) untranslated clock (Some value) now
        = VStr (two_unit_phrase Django_1_5 value (reference_time clock now)
                ++ " ago"))) /\
  (~ (forall (clock value : datetime) (now : option datetime),
        instant (reference_time clock now) - 5 * us_per_day <= instant value ->
        two_unit_phrase Django_1_6 value (reference_time clock now)
        <> "0 minutes"%string ->
        two_unit_phrase Django_1_6 value (reference_time clock now)
        <> "1 day"%string ->
        timesince (django_timesince Django_1_6) untranslated clock (Some value) now
        = VStr (two_unit_phrase Django_1_6 value (reference_time clock now)
                ++ " ago"))) /\
  timesince (django_timesince Django_1_5) untranslated (utc 2014 1 4 2 0 0)
    (Some (utc 2014 1 1 0 0 0)) None
  <> VStr "3 days 2 hours ago" /\
  timesince (django_timesince Django_1_6) untranslated (utc 2014 1 4 2 0 0)
    (Some (utc 2014 1 1 0 0 0)) None
  <> VStr "3 days 2 hours ago".
Proof.
  assert (Hin : instant (reference_time (utc 2014 1 4 2 0 0) None) - 5 * us_per_day
                <= instant (utc 2014 1 1 0 0 0))
    by (vm_compute; discriminate).
  split; [| split; [| split; vm_compute; discriminate]].
  - intros H.
    specialize (H (utc 2014 1 4 2 0 0) (utc 2014 1 1 0 0 0) None Hin).
    vm_compute in H.
    assert (E : VStr "3 days ago" = VStr "3 days 2 hours ago")
      by (apply H; discriminate).
    discriminate E.
  - intros H.
    specialize (H (utc 2014 1 4 2 0 0) (utc 2014 1 1 0 0 0) None Hin).
    vm_compute in H.
    specialize (H ltac:(discriminate) ltac:(discriminate)).
    discriminate H.
Qed.

(** C3, amended: for every timezone-aware timestamp at most 5 days before
    the reference time (and not in the "0 minutes" or "1 day" cases), the
    relative-time filter answers the first two words of the library's delta
    phrase, as plain spaces separate them, with the commas at its ends
    stripped, followed by the translation of " ago".  With a library that
    writes a plain space between a count and its unit (Django up to 1.5)
    this is the count and name of the single most significant unit: 3 days
    and 2 hours give "3 days ago".  With a library that writes a no-break
    space there (Django 1.6) it is the whole delta phrase, with its comma
    and both units: "3 days, 2 hours ago" with U+00A0 after each count.
    This holds for every catalogue of the filter's own messages. *)
Theorem timesince_shown_phrase :
  forall (release : django_release) (gettext : string -> string)
    (clock value : datetime) (now : option datetime),
    instant (reference_time clock now) - 5 * us_per_day <= instant value ->
    let phrase :=
      shown_phrase release (elapsed_seconds value (reference_time clock now)) in
    phrase <> gettext "0 minutes"%string ->
    phrase <> gettext "1 day"%string ->
    timesince (django_timesince release) gettext clock (Some value) now
    = VStr (phrase ++ gettext " ago"%string).
Proof.
  intros release gettext clock value now Hin phrase H0 H1.
  rewrite (timesince_within_five_days release gettext clock value now Hin).
  cbv zeta. fold phrase.
  destruct (String.eqb_spec phrase (gettext "0 minutes"%string)); [contradiction |].
  destruct (String.eqb_spec phrase (gettext "1 day"%string)); [contradiction |].
  reflexivity.
Qed.

Lemma timesince_shown_phrase_witness :
  instant (reference_time (utc 2014 1 4 2 0 0) None) - 5 * us_per_day
  <= instant (utc 2014 1 1 0 0 0) /\
  timesince (django_timesince Django_1_5) untranslated (utc 2014 1 4 2 0 0)
    (Some (utc 2014 1 1 0 0 0)) None
  = VStr "3 days ago" /\
  timesince (django_timesince Django_1_6) untranslated (utc 2014 1 4 2 0 0)
    (Some (utc 2014 1 1 0 0 0)) None
  = VStr (String "3" (String nbsp "days, 2") ++ String nbsp "hours ago").
Proof.
  assert (Hin : instant (reference_time (utc 2014 1 4 2 0 0) None) - 5 * us_per_day
                <= instant (utc 2014 1 1 0 0 0))
    by (vm_compute; discriminate).
  split; [exact Hin |]. split.
  - apply (timesince_shown_phrase Django_1_5 untranslated
             (utc 2014 1 4 2 0 0) (utc 2014 1 1 0 0 0) None Hin);
      vm_compute; discriminate.
  - apply (timesince_shown_phrase Django_1_6 untranslated
             (utc 2014 1 4 2 0 0) (utc 2014 1 1 0 0 0) None Hin);
      vm_compute; discriminate.
Defined.

(** * Further properties *)

(** ** num_digits *)

Lemma digits_from_step :
  forall fuel n acc,
    digits_from (S fuel) n acc
    = if n <? 10 then String (digit_char (n mod 10)) acc
      else digits_from fuel (n / 10) (String (digit_char (n mod 10)) acc).
Proof. reflexivity. Qed.

(** How many characters the digit loop writes, against the powers of ten *)
Lemma digits_from_count :
  forall fuel n acc,
    0 <= n < 10 ^ Z.of_nat (S fuel) ->
    exists k : nat,
      (1 <= k)%nat /\
      String.length (digits_from (S fuel) n acc) = (String.length acc + k)%nat /\
      n < 10 ^ Z.of_nat k /\
      (k = 1%nat \/ 10 ^ (Z.of_nat k - 1) <= n).
Proof.
  induction fuel as [| fuel IH]; intros n acc Hn.
  - exists 1%nat. cbn [digits_from].
    change (10 ^ Z.of_nat 1) with 10 in *.
    destruct (Z.ltb_spec n 10); [| lia].
    cbn [String.length].
      split; [lia |]. split; [lia |]. split; [lia | left; reflexivity].
  - rewrite digits_from_step. destruct (Z.ltb_spec n 10) as [Hlt | Hge].
    + exists 1%nat. change (10 ^ Z.of_nat 1) with 10.
      cbn [String.length].
      split; [lia |]. split; [lia |]. split; [lia | left; reflexivity].
    + rewrite Nat2Z.inj_succ, Z.pow_succ_r in Hn by lia.
      div_mod_facts n 10.
      destruct (IH (n / 10) (String (digit_char (n mod 10)) acc)) as
        (k & Hk & Hlen & Hup & Hlow); [lia |].
      exists (S k). cbn [String.length] in Hlen.
      rewrite Nat2Z.inj_succ, Z.pow_succ_r by lia.
      split; [lia |]. split; [rewrite Hlen; lia |]. split; [lia |].
      right. replace (Z.succ (Z.of_nat k) - 1) with (Z.of_nat k) by lia.
      destruct Hlow as [-> | Hlow].
      * change (10 ^ Z.of_nat 1) with 10. lia.
      * replace (Z.of_nat k) with (Z.succ (Z.of_nat k - 1)) by lia.
        rewrite Z.pow_succ_r by lia. lia.
Qed.

Lemma str_of_nonneg_fuel :
  forall n, 0 <= n -> n < 10 ^ Z.of_nat (S (Z.to_nat (Z.log2 n))).
Proof.
  intros n Hn. destruct (Z.eq_dec n 0) as [-> | Hnz].
  - vm_compute. reflexivity.
  - pose proof (Z.log2_spec n ltac:(lia)) as [_ Hup].
    pose proof (Z.log2_nonneg n) as Hl.
    rewrite Nat2Z.inj_succ, Z2Nat.id by lia.
    eapply Z.lt_le_trans; [exact Hup |].
    apply Z.pow_le_mono_l. lia.
Qed.

(** The length of the decimal writing of a positive int, against the
    powers of ten *)
Lemma decimal_length :
  forall n : Z,
    0 < n ->
    10 ^ (Z.of_nat (String.length (str_of_int n)) - 1) <= n
    < 10 ^ Z.of_nat (String.length (str_of_int n)).
Proof.
  intros n Hn. unfold str_of_int.
  destruct (Z.ltb_spec n 0); [lia |]. unfold str_of_nonneg.
  destruct (digits_from_count (Z.to_nat (Z.log2 n)) n EmptyString) as
    (k & Hk & Hlen & Hup & Hlow).
  { split; [lia | apply str_of_nonneg_fuel; lia]. }
  rewrite Hlen. cbn [String.length]. rewrite Nat.add_0_l.
  split; [| exact Hup].
  destruct Hlow as [-> | Hlow]; [change (10 ^ (Z.of_nat 1 - 1)) with 1; lia | exact Hlow].
Qed.

(** X1: for a positive int, [num_digits] is the number of its decimal
    digits, the [k] with [10^(k-1) <= n < 10^k]; the minus sign of a negative
    int counts as one more character. *)
Theorem num_digits_decimal :
  forall n : Z,
    0 < n ->
    10 ^ (num_digits n - 1) <= n < 10 ^ num_digits n /\
    num_digits (- n) = num_digits n + 1.
Proof.
  intros n Hn. split; [apply decimal_length; exact Hn |].
  unfold num_digits, str_of_int.
  destruct (Z.ltb_spec n 0); [lia |].
  destruct (Z.ltb_spec (- n) 0); [| lia].
  rewrite Z.opp_involutive. cbn [String.length]. lia.
Qed.

Lemma num_digits_decimal_witness :
  0 < 2015 /\ 10 ^ (num_digits 2015 - 1) <= 2015 < 10 ^ num_digits 2015.
Proof.
  split; [lia | apply (num_digits_decimal 2015); lia].
Defined.

(** ** timesince: what is shown when *)

(** A check that holds on every item of a range holds on every number of
    the range. *)
Lemma forallb_range :
  forall (P : Z -> bool) n lo,
    forallb P (range_from n lo 1) = true ->
    forall v, lo <= v < lo + Z.of_nat n -> P v = true.
Proof.
  intros P. induction n as [| n IH]; intros lo Hall v Hv; [lia |].
  cbn [range_from forallb] in Hall.
  apply andb_true_iff in Hall. destruct Hall as [Hlo Hrest].
  destruct (Z.eq_dec v lo) as [-> | Hne]; [exact Hlo |].
  apply (IH (lo + 1) Hrest). lia.
Qed.

(** A phrase that is neither "0 minutes" nor "1 day" gets " ago", when the
    catalogue leaves these two messages as they are. *)
Lemma plain_phrase_ago :
  forall (gettext : string -> string) phrase,
    gettext "0 minutes"%string = "0 minutes"%string ->
    gettext "1 day"%string = "1 day"%string ->
    plain_phrase phrase = true ->
    (if String.eqb phrase (gettext "0 minutes"%string)
     then VStr (gettext "just now"%string)
     else if String.eqb phrase (gettext "1 day"%string)
     then VStr (gettext "yesterday"%string)
     else VStr (phrase ++ gettext " ago"%string))
    = VStr (phrase ++ gettext " ago"%string).
Proof.
  intros gettext phrase E0 E1 H. rewrite E0, E1. unfold plain_phrase in H.
  apply andb_true_iff in H. destruct H as [H0 H1].
  destruct (String.eqb phrase "0 minutes"); [discriminate |].
  destruct (String.eqb phrase "1 day"); [discriminate | reflexivity].
Qed.

(** A phrase with a no-break space in it is none of the messages of a
    catalogue that has no such space in them, and gets " ago". *)
Lemma nbsp_phrase_ago :
  forall (gettext : string -> string) phrase,
    has_char nbsp (gettext "0 minutes"%string) = false ->
    has_char nbsp (gettext "1 day"%string) = false ->
    has_char nbsp phrase = true ->
    (if String.eqb phrase (gettext "0 minutes"%string)
     then VStr (gettext "just now"%string)
     else if String.eqb phrase (gettext "1 day"%string)
     then VStr (gettext "yesterday"%string)
     else VStr (phrase ++ gettext " ago"%string))
    = VStr (phrase ++ gettext " ago"%string).
Proof.
  intros gettext phrase H0 H1 H.
  destruct (String.eqb_spec phrase (gettext "0 minutes"%string)) as [E | _];
    [rewrite E in H; congruence |].
  destruct (String.eqb_spec phrase (gettext "1 day"%string)) as [E | _];
    [rewrite E in H; congruence |].
  reflexivity.
Qed.

Lemma counted_nbsp :
  forall name count, has_char nbsp (counted nbsp name count) = true.
Proof.
  intros name count. unfold counted. rewrite has_char_app. cbn [has_char].
  rewrite Ascii.eqb_refl. cbn [orb]. apply orb_true_r.
Qed.

Lemma delta_phrase_nbsp :
  forall since, has_char nbsp (delta_phrase nbsp since) = true.
Proof.
  intros since. unfold delta_phrase.
  destruct (leading_unit_counted nbsp since) as (name & count & -> & _).
  rewrite has_char_app, counted_nbsp. reflexivity.
Qed.

Lemma minutes_plain :
  forall m, 1 <= m < 60 ->
    plain_phrase (counted " " ("minute", "minutes")%string m) = true.
Proof.
  intros m Hm.
  apply (forallb_range
           (fun m => plain_phrase (counted " " ("minute", "minutes")%string m))
           59 1); [vm_compute; reflexivity | lia].
Qed.

Lemma hours_plain :
  forall h, 1 <= h < 24 ->
    plain_phrase (counted " " ("hour", "hours")%string h) = true.
Proof.
  intros h Hh.
  apply (forallb_range
           (fun h => plain_phrase (counted " " ("hour", "hours")%string h))
           23 1); [vm_compute; reflexivity | lia].
Qed.

Lemma days_plain :
  forall d, 2 <= d <= 5 ->
    plain_phrase (counted " " ("day", "days")%string d) = true.
Proof.
  intros d Hd.
  apply (forallb_range
           (fun d => plain_phrase (counted " " ("day", "days")%string d))
           4 2); [vm_compute; reflexivity | lia].
Qed.

(** At most 432000 whole seconds back is at most five days back. *)
Lemma elapsed_five_days_within :
  forall value now,
    elapsed_seconds value now < 432000 ->
    instant now - 5 * us_per_day <= instant value.
Proof.
  intros value now. unfold elapsed_seconds, us_per_day, us_per_second.
  generalize (instant now) (instant value). intros a b H.
  div_mod_facts (a - b) 1000000. lia.
Qed.

(** Below one minute both releases of the library say zero minutes, each
    with its own gap. *)
Lemma delta_phrase_below_minute :
  forall gap since, since < 60 ->
    leading_unit gap since = counted gap ("minute", "minutes")%string 0 /\
    second_unit gap since = EmptyString.
Proof.
  intros gap since Hs. unfold leading_unit, second_unit.
  destruct (Z.leb_spec 86400 since); [lia |].
  destruct (Z.leb_spec 3600 since); [lia |].
  destruct (Z.leb_spec 60 since); [lia |].
  split; reflexivity.
Qed.

(** X2: a timestamp less than a minute old, or in the future.  With a
    library that writes "0 minutes" with a plain space (Django up to 1.5)
    and a catalogue that leaves that message as it is, the filter answers
    the translation of "just now".  With a library that writes a no-break
    space there (Django 1.6), the test against "0 minutes" fails for every
    catalogue whose "0 minutes" and "1 day" have no such space, and the
    filter answers "0 minutes" with U+00A0 in it, followed by " ago". *)
Theorem timesince_just_now :
  forall (gettext : string -> string) (clock value : datetime)
    (now : option datetime),
    instant (reference_time clock now) - instant value < 60 * us_per_second ->
    (gettext "0 minutes"%string = "0 minutes"%string ->
     timesince (django_timesince Django_1_5) gettext clock (Some value) now
     = VStr (gettext "just now"%string)) /\
    (has_char nbsp (gettext "0 minutes"%string) = false ->
     has_char nbsp (gettext "1 day"%string) = false ->
     timesince (django_timesince Django_1_6) gettext clock (Some value) now
     = VStr (String "0" (String nbsp "minutes") ++ gettext " ago"%string)).
Proof.
  intros gettext clock value now Hnew.
  assert (Hin : instant (reference_time clock now) - 5 * us_per_day <= instant value)
    by (unfold us_per_day, us_per_second in *; lia).
  assert (Hs : elapsed_seconds value (reference_time clock now) < 60).
  { unfold elapsed_seconds, us_per_second in *.
    apply Z.div_lt_upper_bound; lia. }
  split.
  - intros E0. rewrite (timesince_within_five_days _ _ _ _ _ Hin).
    cbv zeta. cbn [shown_phrase].
    rewrite (proj1 (delta_phrase_below_minute " " _ Hs)), E0. reflexivity.
  - intros H0 H1. rewrite (timesince_within_five_days _ _ _ _ _ Hin).
    cbv zeta. rewrite (nbsp_phrase_ago gettext _ H0 H1)
      by (cbn [shown_phrase]; apply delta_phrase_nbsp).
    cbn [shown_phrase]. unfold delta_phrase.
    rewrite (proj1 (delta_phrase_below_minute nbsp _ Hs)),
      (proj2 (delta_phrase_below_minute nbsp _ Hs)).
    reflexivity.
Qed.

Lemma timesince_just_now_witness :
  instant (reference_time (utc 2014 1 4 2 0 0) None) - instant (utc 2014 1 4 1 59 30)
  < 60 * us_per_second /\
  timesince (django_timesince Django_1_5) untranslated (utc 2014 1 4 2 0 0)
    (Some (utc 2014 1 4 1 59 30)) None
  = VStr "just now" /\
  timesince (django_timesince Django_1_6) untranslated (utc 2014 1 4 2 0 0)
    (Some (utc 2014 1 4 1 59 30)) None
  = VStr (String "0" (String nbsp "minutes ago")).
Proof.
  assert (Hnew : instant (reference_time (utc 2014 1 4 2 0 0) None)
                 - instant (utc 2014 1 4 1 59 30) < 60 * us_per_second)
    by (vm_compute; reflexivity).
  destruct (timesince_just_now untranslated (utc 2014 1 4 2 0 0)
              (utc 2014 1 4 1 59 30) None Hnew) as [H15 H16].
  split; [exact Hnew |]. split.
  - apply H15. reflexivity.
  - apply H16; reflexivity.
Defined.

(** From one day to less than two, the leading unit is one day, and the
    second unit is the hours from the twenty-fifth on. *)
Lemma delta_phrase_one_day :
  forall gap since, 86400 <= since < 172800 ->
    leading_unit gap since = counted gap ("day", "days")%string 1 /\
    second_unit gap since
    = if since <? 90000 then EmptyString
      else (", " ++ counted gap ("hour", "hours") ((since - 86400) / 3600))%string.
Proof.
  intros gap since Hs. unfold leading_unit, second_unit.
  destruct (Z.leb_spec 86400 since); [| lia].
  replace (since / 86400) with 1
    by (apply Z.div_unique with (r := since - 86400); lia).
  replace (since mod 86400) with (since - 86400)
    by (apply Z.mod_unique with (q := 1); lia).
  split; [reflexivity |].
  destruct (Z.ltb_spec since 90000).
  - rewrite Z.div_small by lia. reflexivity.
  - assert (0 < (since - 86400) / 3600) by (apply Z.div_str_pos; lia).
    destruct (Z.eqb_spec ((since - 86400) / 3600) 0); [lia | reflexivity].
Qed.

(** X3: a timestamp at least one day and less than two days old, whatever
    the calendar days are.  With a library that writes "1 day" with a plain
    space (Django up to 1.5) and a catalogue that leaves "1 day" as it is,
    the filter answers the translation of "yesterday".  With a library that
    writes a no-break space there (Django 1.6) it never does, for a
    catalogue with no such space in its "0 minutes" and "1 day": it answers
    "1 day" with U+00A0 in it, then the hours past the day when there is at
    least one, then " ago". *)
Theorem timesince_yesterday :
  forall (gettext : string -> string) (clock value : datetime)
    (now : option datetime),
    let since := elapsed_seconds value (reference_time clock now) in
    86400 <= since < 172800 ->
    (gettext "0 minutes"%string <> "1 day"%string ->
     gettext "1 day"%string = "1 day"%string ->
     timesince (django_timesince Django_1_5) gettext clock (Some value) now
     = VStr (gettext "yesterday"%string)) /\
    (has_char nbsp (gettext "0 minutes"%string) = false ->
     has_char nbsp (gettext "1 day"%string) = false ->
     timesince (django_timesince Django_1_6) gettext clock (Some value) now
     = VStr ((String "1" (String nbsp "day")
              ++ (if (since <? 90000)%Z then EmptyString
                  else ", " ++ counted nbsp ("hour", "hours")
                                 ((since - 86400) / 3600)))
             ++ gettext " ago")%string).
Proof.
  intros gettext clock value now since Hs.
  assert (Hin : instant (reference_time clock now) - 5 * us_per_day <= instant value)
    by (apply elapsed_five_days_within; fold since; lia).
  split.
  - intros N0 E1. rewrite (timesince_within_five_days _ _ _ _ _ Hin).
    cbv zeta. fold since. cbn [shown_phrase].
    rewrite (proj1 (delta_phrase_one_day " " since Hs)), E1.
    change (counted " " ("day", "days")%string 1) with "1 day"%string.
    destruct (String.eqb_spec "1 day" (gettext "0 minutes"%string)) as [E | _];
      [congruence | reflexivity].
  - intros H0 H1. rewrite (timesince_within_five_days _ _ _ _ _ Hin).
    cbv zeta. fold since. rewrite (nbsp_phrase_ago gettext _ H0 H1)
      by (cbn [shown_phrase]; apply delta_phrase_nbsp).
    cbn [shown_phrase]. unfold delta_phrase.
    rewrite (proj1 (delta_phrase_one_day nbsp since Hs)),
      (proj2 (delta_phrase_one_day nbsp since Hs)).
    reflexivity.
Qed.

Lemma timesince_yesterday_witness :
  86400 <= elapsed_seconds (utc 2014 1 3 0 0 1) (reference_time (utc 2014 1 4 23 59 59) None)
  < 172800 /\
  timesince (django_timesince Django_1_5) untranslated (utc 2014 1 4 23 59 59)
    (Some (utc 2014 1 3 0 0 1)) None
  = VStr "yesterday" /\
  timesince (django_timesince Django_1_6) untranslated (utc 2014 1 4 23 59 59)
    (Some (utc 2014 1 3 0 0 1)) None
  = VStr (String "1" (String nbsp "day, 23") ++ String nbsp "hours ago").
Proof.
  assert (Hs : 86400 <= elapsed_seconds (utc 2014 1 3 0 0 1)
                          (reference_time (utc 2014 1 4 23 59 59) None) < 172800)
    by (vm_compute; split; [discriminate | reflexivity]).
  destruct (timesince_yesterday untranslated (utc 2014 1 4 23 59 59)
              (utc 2014 1 3 0 0 1) None Hs) as [H15 H16].
  split; [exact Hs |]. split.
  - apply H15; [discriminate | reflexivity].
  - rewrite H16 by reflexivity. vm_compute. reflexivity.
Defined.

(** X4: a timestamp at most five days old.  With a library that writes a
    plain space between count and unit (Django up to 1.5) and a catalogue
    that leaves "0 minutes" and "1 day" as they are, the filter shows one
    unit only, rounded down: whole minutes below an hour, whole hours below
    a day, whole days from two days on, each followed by " ago".  With a
    library that writes a no-break space there (Django 1.6) and a catalogue
    with no such space in these two messages, it shows the whole delta
    phrase followed by " ago", so the second unit is kept: past a whole
    number of hours, the minutes follow the hours after a comma. *)
Theorem timesince_units_shown :
  forall (gettext : string -> string) (clock value : datetime)
    (now : option datetime),
    let since := elapsed_seconds value (reference_time clock now) in
    instant (reference_time clock now) - 5 * us_per_day <= instant value ->
    (gettext "0 minutes"%string = "0 minutes"%string ->
     gettext "1 day"%string = "1 day"%string ->
     (60 <= since < 3600 ->
      timesince (django_timesince Django_1_5) gettext clock (Some value) now
      = VStr (counted " " ("minute", "minutes") (since / 60)
              ++ gettext " ago")%string) /\
     (3600 <= since < 86400 ->
      timesince (django_timesince Django_1_5) gettext clock (Some value) now
      = VStr (counted " " ("hour", "hours") (since / 3600)
              ++ gettext " ago")%string) /\
     (172800 <= since ->
      timesince (django_timesince Django_1_5) gettext clock (Some value) now
      = VStr ((str_of_int (since / 86400) ++ " days")
              ++ gettext " ago")%string)) /\
    (has_char nbsp (gettext "0 minutes"%string) = false ->
     has_char nbsp (gettext "1 day"%string) = false ->
     timesince (django_timesince Django_1_6) gettext clock (Some value) now
     = VStr (delta_phrase nbsp since ++ gettext " ago")%string /\
     (3600 <= since < 86400 ->
      since mod 3600 / 60 <> 0 ->
      delta_phrase nbsp since
      = (counted nbsp ("hour", "hours") (since / 3600) ++ ", "
         ++ counted nbsp ("minute", "minutes") (since mod 3600 / 60))%string)).
Proof.
  intros gettext clock value now since Hin.
  pose proof (elapsed_within_five_days value (reference_time clock now) Hin) as Hmax.
  fold since in Hmax.
  rewrite !(timesince_within_five_days _ gettext clock value now Hin).
  cbv zeta. fold since. split.
  - intros E0 E1. cbn [shown_phrase]. unfold leading_unit.
    split; [| split]; intros Hs.
    + destruct (Z.leb_spec 86400 since); [lia |].
      destruct (Z.leb_spec 3600 since); [lia |].
      destruct (Z.leb_spec 60 since); [| lia].
      apply (plain_phrase_ago gettext _ E0 E1), minutes_plain.
      div_mod_facts since 60. lia.
    + destruct (Z.leb_spec 86400 since); [lia |].
      destruct (Z.leb_spec 3600 since); [| lia].
      apply (plain_phrase_ago gettext _ E0 E1), hours_plain.
      div_mod_facts since 3600. lia.
    + destruct (Z.leb_spec 86400 since); [| lia].
      assert (Hd : 2 <= since / 86400 <= 5) by (div_mod_facts since 86400; lia).
      rewrite (plain_phrase_ago gettext _ E0 E1) by (apply days_plain; exact Hd).
      unfold counted. cbn [fst snd].
      destruct (Z.eqb_spec (since / 86400) 1); [lia | reflexivity].
  - intros H0 H1. cbn [shown_phrase]. split.
    + apply (nbsp_phrase_ago gettext _ H0 H1), delta_phrase_nbsp.
    + intros Hs Hm. unfold delta_phrase, leading_unit, second_unit.
      destruct (Z.leb_spec 86400 since); [lia |].
      destruct (Z.leb_spec 3600 since); [| lia].
      destruct (Z.eqb_spec (since mod 3600 / 60) 0); [contradiction | reflexivity].
Qed.

Lemma timesince_units_shown_witness :
  instant (reference_time (utc 2014 1 4 2 0 0) None) - 5 * us_per_day
  <= instant (utc 2014 1 3 23 10 0) /\
  timesince (django_timesince Django_1_5) untranslated (utc 2014 1 4 2 0 0)
    (Some (utc 2014 1 3 23 10 0)) None
  = VStr "2 hours ago" /\
  timesince (django_timesince Django_1_6) untranslated (utc 2014 1 4 2 0 0)
    (Some (utc 2014 1 3 23 10 0)) None
  = VStr (String "2" (String nbsp "hours, 50") ++ String nbsp "minutes ago").
Proof.
  assert (Hin : instant (reference_time (utc 2014 1 4 2 0 0) None) - 5 * us_per_day
                <= instant (utc 2014 1 3 23 10 0))
    by (vm_compute; discriminate).
  destruct (timesince_units_shown untranslated (utc 2014 1 4 2 0 0)
              (utc 2014 1 3 23 10 0) None Hin) as [H15 H16].
  split; [exact Hin |]. split.
  - rewrite (proj1 (proj2 (H15 eq_refl eq_refl)))
      by (vm_compute; split; [discriminate | reflexivity]).
    vm_compute. reflexivity.
  - rewrite (proj1 (H16 eq_refl eq_refl)). vm_compute. reflexivity.
Defined.

(** ** pprint: breaks that are not positive, and short text *)

(** X5: for every text, pprint with a break of zero raises ValueError; with
    a negative break that fits a C long it returns the empty string, so the
    text is lost; and with a break that does not fit a C long, below or
    above, it raises OverflowError. *)
Theorem pprint_nonpositive_break :
  forall (maxint : Z) (s : string),
    Z.of_nat (String.length s) <= maxint ->
    pprint maxint s 0 = Raise ValueError /\
    (forall break_after : Z,
        - maxint - 1 <= break_after < 0 ->
        pprint maxint s break_after = Ok EmptyString) /\
    (forall break_after : Z,
        break_after < - maxint - 1 \/ maxint < break_after ->
        pprint maxint s break_after = Raise OverflowError).
Proof.
  intros maxint s Hlen. unfold pprint, to_unicode. split; [| split].
  - unfold py_range, fits_long.
    destruct (Z.leb_spec (- maxint - 1) 0); [| lia].
    destruct (Z.leb_spec 0 maxint); [| lia].
    destruct (Z.leb_spec (- maxint - 1) (Z.of_nat (String.length s))); [| lia].
    destruct (Z.leb_spec (Z.of_nat (String.length s)) maxint); [| lia].
    reflexivity.
  - intros b Hb.
    assert (Hn : range_len 0 (Z.of_nat (String.length s)) b = 0).
    { unfold range_len. destruct (Z.ltb_spec 0 b); [lia |].
      destruct (Z.ltb_spec (Z.of_nat (String.length s)) 0); [lia | reflexivity]. }
    rewrite py_range_fits by lia. rewrite Hn. reflexivity.
  - intros b Hb. rewrite py_range_step_overflow by exact Hb. reflexivity.
Qed.

Lemma pprint_nonpositive_break_witness :
  Z.of_nat (String.length "abc") <= maxint64 /\
  pprint maxint64 "abc" 0 = Raise ValueError /\
  pprint maxint64 "abc" (-2) = Ok EmptyString /\
  pprint maxint64 "abc" (- maxint64 - 2) = Raise OverflowError.
Proof.
  assert (Hlen : Z.of_nat (String.length "abc") <= maxint64)
    by (vm_compute; discriminate).
  destruct (pprint_nonpositive_break maxint64 "abc" Hlen) as (H0 & Hneg & Hout).
  split; [exact Hlen |]. split; [exact H0 |]. split.
  - apply Hneg. unfold maxint64. lia.
  - apply Hout. left. lia.
Defined.

Lemma escape_char_plain :
  forall a c, In c html_special -> has_char c (escape_char a) = false.
Proof.
  intros a c Hc. unfold escape_char.
  destruct (Ascii.eqb_spec a "&") as [-> | Hamp];
    [| destruct (Ascii.eqb_spec a "<") as [-> | Hlt];
       [| destruct (Ascii.eqb_spec a ">") as [-> | Hgt];
          [| destruct (Ascii.eqb_spec a (ascii_of_nat 34)) as [-> | Hq];
             [| destruct (Ascii.eqb_spec a "'") as [-> | Hap]]]]];
    cbn [html_special In] in Hc;
    repeat (destruct Hc as [<- | Hc]; [try (vm_compute; reflexivity) |]);
    try contradiction;
    cbn [has_char]; rewrite orb_false_r; apply Ascii.eqb_neq; assumption.
Qed.

Lemma escape_plain :
  forall s c, In c html_special -> has_char c (escape s) = false.
Proof.
  intros s c Hc. induction s as [| a s IH]; [reflexivity |].
  cbn [escape]. rewrite has_char_app, IH, (escape_char_plain a c Hc). reflexivity.
Qed.

(** X6: a text that is not empty and no longer than the break, with a break
    that fits a C long, is returned escaped, with no marker in it: none of
    the characters <, >, double quote and apostrophe is left in the
    result. *)
Theorem pprint_short_text :
  forall (maxint : Z) (s : string) (break_after : Z),
    s <> EmptyString ->
    Z.of_nat (String.length s) <= break_after <= maxint ->
    pprint maxint s break_after = Ok (escape s) /\
    (forall c, In c html_special -> has_char c (escape s) = false).
Proof.
  intros maxint s b Hs Hlen. split; [| intros c Hc; apply escape_plain; exact Hc].
  assert (Hpos : 0 < Z.of_nat (String.length s))
    by (destruct s; [congruence | cbn [String.length]; lia]).
  assert (Hone : (Z.of_nat (String.length s) + b - 1) / b = 1)
    by (symmetry; apply Z.div_unique with (r := Z.of_nat (String.length s) - 1); lia).
  unfold pprint, to_unicode, mark_safe.
  rewrite py_range_fits by (rewrite ?chunk_count_range_len by lia; lia).
  cbn [bind]. rewrite chunk_count_range_len by lia. rewrite Hone.
  change (Z.to_nat 1) with 1%nat. cbn [range_from map String.concat].
  rewrite py_slice_take_drop by lia.
  change (Z.to_nat 0) with 0%nat. cbn [drop].
  rewrite <- (take_drop (Z.to_nat b) s) at 2.
  assert (Hd : drop (Z.to_nat b) s = EmptyString).
  { pose proof (drop_length (Z.to_nat b) s) as Hl.
    destruct (drop (Z.to_nat b) s); [reflexivity | cbn [String.length] in Hl; lia]. }
  rewrite Hd, append_empty_r. reflexivity.
Qed.

Lemma pprint_short_text_witness :
  ("a<b"%string <> EmptyString /\
   Z.of_nat (String.length "a<b") <= 10 <= maxint64) /\
  pprint maxint64 "a<b" 10 = Ok (escape "a<b").
Proof.
  assert (Hlen : Z.of_nat (String.length "a<b") <= 10 <= maxint64)
    by (split; vm_compute; discriminate).
  split; [split; [discriminate | exact Hlen] |].
  apply (pprint_short_text maxint64 "a<b" 10); [discriminate | exact Hlen].
Defined.

(** ** small_count: negative ints and floats *)

(** X7: a negative int never falls through the unit table: floor division
    gives a non-zero quotient already for the billions, so every negative
    count is written as billions, as in "-0.0b" for -5. *)
Theorem small_count_negative_billions :
  forall (gettext : string -> string) (v : Z),
    v < 0 ->
    exists s : string,
      small_count gettext (NInt v) = Ok (VStr (s ++ gettext "b"%string)).
Proof.
  intros gettext v Hv. unfold small_count, truthy, py_int.
  destruct (Z.eqb_spec v 0); [lia |]. cbn [negb bind].
  unfold small_count_units. cbn [small_count_loop].
  destruct (Z.div_eucl v 1000000000) as [o p] eqn:E.
  assert (Ho : o = v / 1000000000) by (unfold Z.div; rewrite E; reflexivity).
  div_mod_facts v 1000000000.
  destruct (Z.eqb_spec o 0) as [Hz | Hnz]; [lia |]. cbn [negb].
  destruct ((2 <? Z.of_nat (String.length (str_of_int o))) || (p =? 0)) eqn:Hc.
  - eexists. reflexivity.
  - apply orb_false_iff in Hc. destruct Hc as [Hlen _].
    apply Z.ltb_ge in Hlen.
    assert (Hsmall : -10 < o).
    { destruct (Z.lt_ge_cases (-10) o) as [H10 | H10]; [exact H10 | exfalso].
      unfold str_of_int in Hlen.
      destruct (Z.ltb_spec o 0); [| lia].
      cbn [String.length] in Hlen.
      pose proof (decimal_length (- o) ltac:(lia)) as [Hlow _].
      unfold str_of_int in Hlow.
      destruct (Z.ltb_spec (- o) 0); [lia |].
      assert (Hk : Z.of_nat (String.length (str_of_nonneg (- o))) <= 1) by lia.
      assert (Hp : 10 ^ Z.of_nat (String.length (str_of_nonneg (- o)))
                   <= 10 ^ 1) by (apply Z.pow_le_mono_r; lia).
      pose proof (decimal_length (- o) ltac:(lia)) as [_ Hup].
      unfold str_of_int in Hup.
      destruct (Z.ltb_spec (- o) 0); [lia |].
      change (10 ^ 1) with 10 in Hp. lia. }
    rewrite (float_of_int_small v) by lia.
    rewrite (float_of_int_small 1000000000) by lia.
    cbn [bind]. eexists. reflexivity.
Qed.

Lemma small_count_negative_billions_witness :
  -5 < 0 /\ small_count untranslated (NInt (-5)) = Ok (VStr "-0.0b").
Proof.
  split; [lia |].
  destruct (small_count_negative_billions untranslated (-5) ltac:(lia)) as [s Hs].
  vm_compute. reflexivity.
Defined.

(** X8: a float is abbreviated as its integer part is: whenever [int(f)]
    is defined, small_count of the float is small_count of that int. *)
Theorem small_count_float_truncated :
  forall (gettext : string -> string) (f : spec_float) (n : Z),
    int_of_float f = Ok n ->
    small_count gettext (NFloat f) = small_count gettext (NInt n).
Proof.
  intros gettext f n Hn. unfold small_count, truthy, py_int.
  destruct f as [s | s | | s m e]; try discriminate Hn.
  - cbn in Hn. injection Hn as <-. reflexivity.
  - rewrite Hn. cbn [is_zero negb bind].
    destruct (Z.eqb_spec n 0) as [-> | Hnz]; [| reflexivity].
    cbn [negb]. vm_compute. reflexivity.
Qed.

Lemma small_count_float_truncated_witness :
  int_of_float (fdiv (flit 15007) (flit 10)) = Ok 1500 /\
  small_count untranslated (NFloat (fdiv (flit 15007) (flit 10))) = Ok (VStr "1.5k").
Proof.
  split; [vm_compute; reflexivity |].
  rewrite (small_count_float_truncated untranslated (fdiv (flit 15007) (flit 10)) 1500)
    by (vm_compute; reflexivity).
  vm_compute. reflexivity.
Defined.

(** ** duration and percent on small numbers *)

(** X9: from 1 to 1000 milliseconds the duration is written exactly, as the
    number of milliseconds and "ms": the division by 1000.0 and the product
    by 1000 lose nothing there, and 1000 itself is "1000ms". *)
Theorem duration_milliseconds :
  forall v : Z,
    1 <= v <= 1000 ->
    duration (NInt v) = Ok (str_of_int v ++ "ms")%string.
Proof.
  intros v Hv.
  assert (H : duration_is_ms v = true).
  { apply (forallb_range duration_is_ms 1000 1); [vm_compute; reflexivity | lia]. }
  unfold duration_is_ms in H.
  destruct (duration (NInt v)) as [s |]; [| discriminate].
  apply String.eqb_eq in H. rewrite H. reflexivity.
Qed.

Lemma duration_milliseconds_witness :
  1 <= 250 <= 1000 /\ duration (NInt 250) = Ok "250ms"%string.
Proof.
  split; [lia | apply (duration_milliseconds 250); lia].
Defined.

(** X10: for ints with 1 <= value <= total <= 200, percent is the floor of
    the exact percentage or one below it, never above; the whole of a total
    is 100. *)
Theorem percent_within_one :
  forall value total : Z,
    1 <= value <= total -> total <= 200 ->
    exists p : Z,
      percent (NInt value) (NInt total) = Ok p /\
      100 * value / total - 1 <= p <= 100 * value / total /\
      (value = total -> p = 100).
Proof.
  intros value total Hv Ht.
  assert (H : forallb (fun t => forallb (percent_is_close t)
                                  (range_from (Z.to_nat t) 1 1))
                (range_from 200 1 1) = true) by (vm_compute; reflexivity).
  pose proof (forallb_range _ 200 1 H total ltac:(lia)) as Hrow.
  cbv beta in Hrow.
  pose proof (forallb_range _ (Z.to_nat total) 1 Hrow value ltac:(lia)) as Hcell.
  unfold percent_is_close in Hcell.
  destruct (percent (NInt value) (NInt total)) as [p |]; [| discriminate].
  exists p. split; [reflexivity |].
  apply andb_true_iff in Hcell. destruct Hcell as [Hb Hw].
  apply andb_true_iff in Hb. destruct Hb as [Hlo Hhi].
  apply Z.leb_le in Hlo. apply Z.leb_le in Hhi.
  split; [lia |]. intros ->.
  apply orb_true_iff in Hw. destruct Hw as [Hw | Hw].
  - apply Z.eqb_eq in Hw. exact Hw.
  - rewrite Z.eqb_refl in Hw. discriminate.
Qed.

Lemma percent_within_one_witness :
  (1 <= 29 <= 50 /\ 50 <= 200) /\ percent (NInt 29) (NInt 50) = Ok 57.
Proof.
  split; [lia |].
  destruct (percent_within_one 29 50 ltac:(lia) ltac:(lia)) as (p & Hp & _).
  vm_compute. reflexivity.
Defined.

(** ** Text filters *)

Lemma starts_with_app :
  forall pre s, starts_with pre s = true -> exists rest, s = (pre ++ rest)%string.
Proof.
  induction pre as [| a pre IH]; intros s H.
  - exists s. reflexivity.
  - destruct s as [| b s]; [discriminate |]. cbn [starts_with] in H.
    apply andb_true_iff in H. destruct H as [Hab Hrest].
    apply Ascii.eqb_eq in Hab. subst b.
    destruct (IH s Hrest) as [rest ->]. exists rest. reflexivity.
Qed.

Lemma starts_with_refl_app :
  forall pre rest, starts_with pre (pre ++ rest) = true.
Proof.
  induction pre as [| a pre IH]; intros rest; [reflexivity |].
  cbn [append starts_with]. rewrite Ascii.eqb_refl, IH. reflexivity.
Qed.

Lemma append_length :
  forall a b, String.length (a ++ b) = (String.length a + String.length b)%nat.
Proof.
  induction a as [| x a IH]; intros b; [reflexivity |].
  cbn [append String.length]. rewrite IH. reflexivity.
Qed.

Lemma drop_app_length :
  forall a b, drop (String.length a) (a ++ b) = b.
Proof.
  induction a as [| x a IH]; intros b; [destruct b; reflexivity | apply IH].
Qed.

(** Joining what a split scan gives back restores the text, less the
    characters still to be skipped. *)
Lemma split_scan_join :
  forall sep limit s skip,
    sep <> EmptyString ->
    String.concat sep (split_scan sep limit skip s) = drop skip s /\
    split_scan sep limit skip s <> [].
Proof.
  intros sep limit s. revert limit.
  induction s as [| c s IH]; intros limit skip Hsep.
  - split; [destruct skip; reflexivity | discriminate].
  - destruct skip as [| k].
    + cbn [split_scan drop].
      destruct (may_split limit && starts_with sep (String c s)) eqn:Hm.
      * apply andb_true_iff in Hm. destruct Hm as [_ Hpre].
        destruct (IH (one_split_less limit) (String.length sep - 1)%nat Hsep)
          as [Hjoin Hne].
        split; [| discriminate].
        destruct (split_scan sep (one_split_less limit)
                    (String.length sep - 1) s) as [| p ps] eqn:E;
          [congruence |].
        cbn [String.concat]. cbn [String.concat] in Hjoin. rewrite Hjoin.
        destruct (starts_with_app sep (String c s) Hpre) as [rest Hrest].
        destruct sep as [| a sep']; [congruence |].
        cbn [append] in Hrest. injection Hrest as -> ->.
        replace (String.length (String a sep') - 1)%nat with (String.length sep')
          by (cbn [String.length]; lia).
        cbn [append]. rewrite drop_app_length. reflexivity.
      * destruct (IH limit 0%nat Hsep) as [Hjoin Hne].
        destruct (split_scan sep limit 0 s) as [| p ps] eqn:E; [congruence |].
        split; [| discriminate].
        cbn [drop] in Hjoin.
        destruct ps as [| q ps].
        -- cbn [String.concat] in *. rewrite Hjoin. reflexivity.
        -- cbn [String.concat] in *. cbn [append]. rewrite Hjoin. reflexivity.
    + cbn [split_scan drop]. apply IH. exact Hsep.
Qed.

(** X11: the [split] filter raises ValueError with its default delimiter,
    the empty string, whatever the value; with any other delimiter it
    returns at least one piece, and joining the pieces with the delimiter
    gives the value back. *)
Theorem split_filter_round_trip :
  forall value : string,
    split value None = Raise ValueError /\
    split value (Some EmptyString) = Raise ValueError /\
    (forall delim : string,
        delim <> EmptyString ->
        exists pieces : list string,
          split value (Some delim) = Ok pieces /\
          pieces <> [] /\
          String.concat delim pieces = value).
Proof.
  intros value. split; [reflexivity |]. split; [reflexivity |].
  intros delim Hd. unfold split, py_split.
  destruct delim as [| a d]; [congruence |].
  eexists. split; [reflexivity |].
  destruct (split_scan_join (String a d) None value 0%nat Hd) as [Hjoin Hne].
  split; [exact Hne | exact Hjoin].
Qed.

Lemma split_filter_round_trip_witness :
  (", " <> EmptyString)%string /\
  split "a, b, c" (Some ", "%string) = Ok ["a"; "b"; "c"]%string.
Proof.
  split; [discriminate |].
  destruct (proj2 (proj2 (split_filter_round_trip "a, b, c")) ", "%string
              ltac:(discriminate)) as (pieces & Hp & _).
  vm_compute. reflexivity.
Defined.

Lemma split_scan_no_more :
  forall sep s, split_scan sep (Some O) 0 s = [s].
Proof.
  intros sep. induction s as [| c s IH]; [reflexivity |].
  cbn [split_scan may_split andb]. rewrite IH. reflexivity.
Qed.

(** The one split of [trim_schema] on a text whose first two slashes follow
    a part with no slash *)
Lemma split_scan_first_slashes :
  forall head rest,
    has_char "/" head = false ->
    split_scan "//" (Some 1%nat) 0 (head ++ "//" ++ rest) = [head; rest].
Proof.
  induction head as [| c head IH]; intros rest Hh.
  - cbn [append]. cbn [split_scan may_split starts_with andb one_split_less
                        String.length Nat.sub].
    rewrite !Ascii.eqb_refl. cbn [andb].
    rewrite split_scan_no_more. reflexivity.
  - cbn [has_char] in Hh. apply orb_false_iff in Hh. destruct Hh as [Hc Hh].
    change (String c head ++ "//" ++ rest)%string
      with (String c (head ++ "//" ++ rest)).
    cbn [split_scan may_split starts_with andb].
    rewrite Ascii.eqb_sym, Hc. cbn [andb].
    rewrite (IH rest Hh). reflexivity.
Qed.

Lemma split_scan_absent :
  forall limit s,
    has_char "/" s = false -> split_scan "//" limit 0 s = [s].
Proof.
  intros limit. induction s as [| c s IH]; intros Hs; [reflexivity |].
  cbn [has_char] in Hs. apply orb_false_iff in Hs. destruct Hs as [Hc Hs].
  cbn [split_scan starts_with]. rewrite Ascii.eqb_sym, Hc.
  cbn [andb]. rewrite andb_false_r, (IH Hs). reflexivity.
Qed.

(** X12: [trim_schema] removes everything up to and including the first
    double slash when only a slash-free part stands before it, and leaves a
    text with no slash at all as it is. *)
Theorem trim_schema_first_slashes :
  forall head rest : string,
    has_char "/" head = false ->
    trim_schema (head ++ "//" ++ rest) = rest /\
    trim_schema head = head.
Proof.
  intros head rest Hh. unfold trim_schema. split.
  - rewrite (split_scan_first_slashes head rest Hh). reflexivity.
  - rewrite (split_scan_absent (Some 1%nat) head Hh). reflexivity.
Qed.

Lemma trim_schema_first_slashes_witness :
  has_char "/" "git+ssh:" = false /\
  trim_schema "git+ssh://example.com//x" = "example.com//x"%string.
Proof.
  split; [reflexivity |].
  apply (proj1 (trim_schema_first_slashes "git+ssh:" "example.com//x" eq_refl)).
Defined.

(** X13: whatever [is_url] accepts is text with no space in it that is
    "http://" or "https://" followed by its own [trim_schema]; a value that
    is not text is never a URL. *)
Theorem is_url_scheme_and_rest :
  (forall s : string,
      is_url (OText s) = true ->
      has_char " " s = false /\
      (s = ("http://" ++ trim_schema s)%string \/
       s = ("https://" ++ trim_schema s)%string)) /\
  (forall n : pynum, is_url (ONum n) = false).
Proof.
  split; [| reflexivity].
  intros s H. unfold is_url in H.
  destruct (starts_with "http://" s || starts_with "https://" s) eqn:Hsch;
    cbn [negb] in H; [| discriminate].
  destruct (has_char " " s) eqn:Hsp; [discriminate |].
  split; [reflexivity |].
  apply orb_true_iff in Hsch. destruct Hsch as [Hp | Hp].
  - left. destruct (starts_with_app _ _ Hp) as [rest ->].
    change ("http://" ++ rest)%string with ("http:" ++ "//" ++ rest)%string at 2.
    unfold trim_schema.
    rewrite (split_scan_first_slashes "http:" rest eq_refl). reflexivity.
  - right. destruct (starts_with_app _ _ Hp) as [rest ->].
    change ("https://" ++ rest)%string with ("https:" ++ "//" ++ rest)%string at 2.
    unfold trim_schema.
    rewrite (split_scan_first_slashes "https:" rest eq_refl). reflexivity.
Qed.

Lemma is_url_scheme_and_rest_witness :
  is_url (OText "https://sentry.io/x") = true /\
  "https://sentry.io/x"%string = ("https://" ++ trim_schema "https://sentry.io/x")%string.
Proof.
  split; [reflexivity |].
  destruct (proj1 is_url_scheme_and_rest "https://sentry.io/x"%string eq_refl)
    as [_ [H | H]]; [vm_compute in H; discriminate H | exact H].
Defined.

(** ** basename *)

Lemma rfind_from_absent :
  forall c s i best, has_char c s = false -> rfind_from c s i best = best.
Proof.
  intros c. induction s as [| a s IH]; intros i best H; [reflexivity |].
  cbn [has_char] in H. apply orb_false_iff in H. destruct H as [Ha Hs].
  cbn [rfind_from]. rewrite Ha. apply IH. exact Hs.
Qed.

Lemma rfind_from_last :
  forall c d n i best,
    has_char c n = false ->
    rfind_from c (d ++ String c n) i best = i + Z.of_nat (String.length d).
Proof.
  intros c. induction d as [| a d IH]; intros n i best Hn.
  - cbn [append rfind_from String.length]. rewrite Ascii.eqb_refl.
    rewrite rfind_from_absent by exact Hn. cbn [Z.of_nat]. lia.
  - cbn [append rfind_from String.length]. rewrite IH by exact Hn. lia.
Qed.

(** A path is free of slashes, or has a last slash. *)
Lemma last_slash :
  forall p : string,
    has_char "/" p = false \/
    exists d n, p = (d ++ String "/" n)%string /\ has_char "/" n = false.
Proof.
  induction p as [| a p IH]; [left; reflexivity |].
  destruct IH as [Hfree | (d & n & -> & Hn)].
  - destruct (Ascii.eqb_spec a "/") as [-> | Hne].
    + right. exists EmptyString, p. split; [reflexivity | exact Hfree].
    + left. cbn [has_char]. rewrite Hfree, orb_false_r.
      apply Ascii.eqb_neq. exact Hne.
  - right. exists (String a d), n. split; [reflexivity | exact Hn].
Qed.

Lemma basename_after_slash :
  forall d n, has_char "/" n = false -> basename (d ++ String "/" n) = n.
Proof.
  intros d n Hn. unfold basename, py_rfind, py_slice_from, slice_bound.
  rewrite rfind_from_last by exact Hn.
  rewrite append_length. cbn [String.length].
  destruct (Z.ltb_spec (0 + Z.of_nat (String.length d) + 1) 0); [lia |].
  replace (Z.to_nat _) with (String.length (d ++ "/"))
    by (rewrite append_length; cbn [String.length]; lia).
  replace (d ++ String "/" n)%string with ((d ++ "/") ++ n)%string
    by (rewrite append_assoc; reflexivity).
  apply drop_app_length.
Qed.

Lemma basename_no_slash :
  forall p, has_char "/" p = false -> basename p = p.
Proof.
  intros p Hp. unfold basename, py_rfind, py_slice_from, slice_bound.
  rewrite rfind_from_absent by exact Hp.
  change (-1 + 1) with 0. cbn [Z.ltb Z.compare].
  replace (Z.to_nat _) with 0%nat by lia. reflexivity.
Qed.

(** X14: the basename of a path has no slash in it and is the end of the
    path: what stands before it is empty or ends with a slash.  So a path
    with no slash is its own basename, and a path ending in a slash has an
    empty one. *)
Theorem basename_last_segment :
  forall p : string,
    has_char "/" (basename p) = false /\
    exists d : string,
      p = (d ++ basename p)%string /\
      (d = EmptyString \/ exists d', d = (d' ++ "/")%string).
Proof.
  intros p. destruct (last_slash p) as [Hfree | (d & n & -> & Hn)].
  - rewrite basename_no_slash by exact Hfree. split; [exact Hfree |].
    exists EmptyString. split; [reflexivity | left; reflexivity].
  - rewrite basename_after_slash by exact Hn. split; [exact Hn |].
    exists (d ++ "/")%string. split.
    + rewrite append_assoc. reflexivity.
    + right. exists d. reflexivity.
Qed.

(** ** urlquote *)

Lemma string_forall_has_char :
  forall P s c, string_forall P s = true -> has_char c s = true -> P c = true.
Proof.
  intros P. induction s as [| a s IH]; intros c Hall Hc; [discriminate |].
  cbn [string_forall] in Hall. apply andb_true_iff in Hall.
  destruct Hall as [Ha Hs]. cbn [has_char] in Hc.
  apply orb_true_iff in Hc. destruct Hc as [Hc | Hc].
  - apply Ascii.eqb_eq in Hc. subst a. exact Ha.
  - apply IH; assumption.
Qed.

Lemma string_forall_app :
  forall P a b,
    string_forall P (a ++ b) = string_forall P a && string_forall P b.
Proof.
  intros P. induction a as [| x a IH]; intros b; [reflexivity |].
  cbn [append string_forall]. rewrite IH, andb_assoc. reflexivity.
Qed.

Lemma percent_escape_quoted :
  forall safe c, string_forall (quoted_char safe) (percent_escape c) = true.
Proof.
  intros safe c.
  assert (H : string_forall (quoted_char EmptyString) (percent_escape c) = true).
  { destruct c as [[] [] [] [] [] [] [] []]; vm_compute; reflexivity. }
  revert H. generalize (percent_escape c). intros s.
  induction s as [| a s IH]; [reflexivity |].
  cbn [string_forall]. intros H. apply andb_true_iff in H. destruct H as [Ha Hs].
  rewrite (IH Hs), andb_true_r. unfold quoted_char in *.
  cbn [has_char] in Ha. rewrite orb_false_r in Ha. rewrite Ha. reflexivity.
Qed.

Lemma rstrip_chars_empty :
  forall chars s,
    rstrip_chars chars s = EmptyString ->
    string_forall (fun c => has_char c chars) s = true.
Proof.
  intros chars. induction s as [| a s IH]; intros H; [reflexivity |].
  cbn [rstrip_chars] in H.
  destruct (rstrip_chars chars s) as [| r rs]; [| discriminate].
  destruct (has_char a chars) eqn:Ha; [| discriminate].
  cbn [string_forall]. rewrite Ha, IH; reflexivity.
Qed.

Lemma rstrip_chars_all :
  forall chars s,
    string_forall (fun c => has_char c chars) s = true ->
    rstrip_chars chars s = EmptyString.
Proof.
  intros chars. induction s as [| a s IH]; intros H; [reflexivity |].
  cbn [string_forall] in H. apply andb_true_iff in H. destruct H as [Ha Hs].
  cbn [rstrip_chars]. rewrite (IH Hs), Ha. reflexivity.
Qed.

Lemma quote_bytes_quoted :
  forall safe s,
    string_forall (quoted_char safe) (quote_bytes (always_safe ++ safe) s) = true.
Proof.
  intros safe. induction s as [| a s IH]; [reflexivity |].
  cbn [quote_bytes]. rewrite string_forall_app, IH, andb_true_r.
  unfold quoter. destruct (has_char a (always_safe ++ safe)) eqn:Ha.
  - cbn [string_forall]. rewrite andb_true_r. unfold quoted_char.
    rewrite has_char_app in Ha. rewrite <- orb_assoc, Ha. apply orb_true_r.
  - apply percent_escape_quoted.
Qed.

(** X15: every character of a quoted value is the percent sign, one of the
    always-safe characters (letters, digits, underscore, dot, hyphen) or one
    of the caller's safe characters: nothing else, such as a space, a slash
    or a byte above 127, gets through unescaped. *)
Theorem urlquote_alphabet :
  forall (value safe : string) (c : ascii),
    has_char c (urlquote value safe) = true ->
    c = "%"%char \/ has_char c always_safe = true \/ has_char c safe = true.
Proof.
  intros value safe c Hc.
  assert (Hall : string_forall (quoted_char safe) (urlquote value safe) = true).
  { unfold urlquote, quote.
    destruct (encode_utf8 value) as [| b bs] eqn:E; [reflexivity |].
    destruct (rstrip_chars (always_safe ++ safe) (String b bs)) eqn:Hr.
    - apply rstrip_chars_empty in Hr. revert Hr.
      generalize (String b bs). intros s.
      induction s as [| a s IH]; [reflexivity |].
      cbn [string_forall]. intros H. apply andb_true_iff in H.
      destruct H as [Ha Hs]. rewrite (IH Hs), andb_true_r.
      unfold quoted_char. rewrite has_char_app in Ha.
      rewrite <- orb_assoc, Ha. apply orb_true_r.
    - apply quote_bytes_quoted. }
  pose proof (string_forall_has_char _ _ c Hall Hc) as H.
  unfold quoted_char in H.
  apply orb_true_iff in H. destruct H as [H | H]; [| right; right; exact H].
  apply orb_true_iff in H. destruct H as [H | H]; [| right; left; exact H].
  left. apply Ascii.eqb_eq. exact H.
Qed.

Lemma urlquote_alphabet_witness :
  has_char "2" (urlquote "a b" EmptyString) = true /\
  ("2"%char = "%"%char \/ has_char "2" always_safe = true
   \/ has_char "2" EmptyString = true).
Proof.
  split; [reflexivity |].
  apply (urlquote_alphabet "a b" EmptyString "2"). reflexivity.
Defined.

Lemma encode_utf8_ascii :
  forall s,
    string_forall (fun c => (nat_of_ascii c <? 128)%nat) s = true ->
    encode_utf8 s = s.
Proof.
  induction s as [| a s IH]; intros H; [reflexivity |].
  cbn [string_forall] in H. apply andb_true_iff in H. destruct H as [Ha Hs].
  cbn [encode_utf8]. unfold utf8_bytes. rewrite Ha, (IH Hs). reflexivity.
Qed.

Lemma always_safe_ascii :
  forall c, has_char c always_safe = true -> (nat_of_ascii c <? 128)%nat = true.
Proof.
  intros c H.
  apply (string_forall_has_char (fun c => (nat_of_ascii c <? 128)%nat)
           always_safe c); [vm_compute; reflexivity | exact H].
Qed.

(** X16: a value made of always-safe characters only comes out of urlquote
    unchanged, whatever the safe argument. *)
Theorem urlquote_safe_unchanged :
  forall value safe : string,
    string_forall (fun c => has_char c always_safe) value = true ->
    urlquote value safe = value.
Proof.
  intros value safe Hall.
  assert (Hascii : string_forall (fun c => (nat_of_ascii c <? 128)%nat) value = true).
  { revert Hall. induction value as [| a v IH]; [reflexivity |].
    cbn [string_forall]. intros H. apply andb_true_iff in H.
    destruct H as [Ha Hv]. rewrite (always_safe_ascii a Ha), (IH Hv). reflexivity. }
  unfold urlquote, quote. rewrite (encode_utf8_ascii value Hascii).
  destruct value as [| b bs]; [reflexivity |].
  rewrite rstrip_chars_all; [reflexivity |].
  revert Hall. generalize (String b bs). intros s.
  induction s as [| a s IH]; [reflexivity |].
  cbn [string_forall]. intros H. apply andb_true_iff in H. destruct H as [Ha Hs].
  rewrite (IH Hs), andb_true_r, has_char_app, Ha. reflexivity.
Qed.

Lemma urlquote_safe_unchanged_witness :
  string_forall (fun c => has_char c always_safe) "sentry-7.4_rc1" = true /\
  urlquote "sentry-7.4_rc1" "/" = "sentry-7.4_rc1"%string.
Proof.
  split; [reflexivity |].
  apply (urlquote_safe_unchanged "sentry-7.4_rc1" "/"). reflexivity.
Defined.

(** ** render_values *)

Lemma insert_item_perm :
  forall (A : Type) (x : dkey * A) l, Permutation (insert_item A x l) (x :: l).
Proof.
  intros A x. induction l as [| y l IH]; cbn [insert_item]; [reflexivity |].
  destruct (key_leb (fst x) (fst y)); [reflexivity |].
  rewrite IH. apply perm_swap.
Qed.

Lemma sorted_items_perm :
  forall (A : Type) (l : list (dkey * A)), Permutation (sorted_items A l) l.
Proof.
  intros A. induction l as [| x l IH]; [reflexivity |].
  cbn [sorted_items fold_right]. fold (sorted_items A l).
  rewrite insert_item_perm, IH. reflexivity.
Qed.

(** X17: for a list, tuple or dict, the two parts handed to the template
    are always set and, put one after the other, are the sorted items: every
    entry of the input is shown exactly once, before or after the expander,
    whatever the threshold and collapse_to are. *)
Theorem render_values_keeps_entries :
  forall (A : Type) (dict_order : list (dkey * A) -> list (dkey * A))
         (value : rv_input A) (threshold collapse_to : Z),
    is_other A value = false ->
    exists before after : list (dkey * A),
      ctx_value_before_expand A (render_values A dict_order value threshold collapse_to)
      = Some before /\
      ctx_value_after_expand A (render_values A dict_order value threshold collapse_to)
      = Some after /\
      (before ++ after)%list = sorted_items A (input_items A dict_order value) /\
      Permutation (before ++ after)%list (input_items A dict_order value).
Proof.
  intros A dict_order value threshold collapse_to Hv.
  assert (Hshape :
    render_values A dict_order value threshold collapse_to
    = let sorted := sorted_items A (input_items A dict_order value) in
      let is_list := match value with
                     | RList _ => match input_items A dict_order value with
                                  | [] => false
                                  | _ => true
                                  end
                     | _ => false
                     end in
      if threshold <? Z.of_nat (List.length sorted)
      then mk_values_context A true is_list threshold collapse_to
             (Some (threshold <? Z.of_nat (List.length sorted)))
             (Some (Z.of_nat (List.length sorted) - collapse_to))
             (Some (list_slice_to A sorted collapse_to))
             (Some (list_slice_from A sorted collapse_to)) None
      else mk_values_context A true is_list threshold collapse_to
             (Some (threshold <? Z.of_nat (List.length sorted))) (Some 0)
             (Some sorted) (Some []) None).
  { destruct value; [reflexivity | reflexivity | discriminate]. }
  rewrite Hshape. cbv zeta.
  destruct (threshold <? Z.of_nat (List.length (sorted_items A (input_items A dict_order value)))).
  - eexists. eexists. split; [reflexivity |]. split; [reflexivity |].
    cbn [ctx_value_before_expand ctx_value_after_expand].
    unfold list_slice_to, list_slice_from. rewrite firstn_skipn.
    split; [reflexivity | apply sorted_items_perm].
  - eexists. eexists. split; [reflexivity |]. split; [reflexivity |].
    rewrite app_nil_r. split; [reflexivity | apply sorted_items_perm].
Qed.

Lemma render_values_keeps_entries_witness :
  is_other nat (RDict [(KStr "b", 2%nat); (KStr "a", 1%nat)]) = false /\
  ctx_value_before_expand nat
    (render_values nat (@rev _) (RDict [(KStr "b", 2%nat); (KStr "a", 1%nat)]) 1 1)
  = Some [(KStr "a", 1%nat)].
Proof.
  split; [reflexivity |].
  destruct (render_values_keeps_entries nat (@rev _)
              (RDict [(KStr "b", 2%nat); (KStr "a", 1%nat)]) 1 1 eq_refl)
    as (before & after & Hb & _).
  vm_compute. reflexivity.
Defined.

Lemma render_values_shape :
  forall (A : Type) (dict_order : list (dkey * A) -> list (dkey * A))
         (value : rv_input A) (threshold collapse_to : Z),
    is_other A value = false ->
    render_values A dict_order value threshold collapse_to
    = let sorted := sorted_items A (input_items A dict_order value) in
      let is_list := match value with
                     | RList _ => match input_items A dict_order value with
                                  | [] => false
                                  | _ => true
                                  end
                     | _ => false
                     end in
      if threshold <? Z.of_nat (List.length sorted)
      then mk_values_context A true is_list threshold collapse_to
             (Some (threshold <? Z.of_nat (List.length sorted)))
             (Some (Z.of_nat (List.length sorted) - collapse_to))
             (Some (list_slice_to A sorted collapse_to))
             (Some (list_slice_from A sorted collapse_to)) None
      else mk_values_context A true is_list threshold collapse_to
             (Some (threshold <? Z.of_nat (List.length sorted))) (Some 0)
             (Some sorted) (Some []) None.
Proof.
  intros A dict_order value threshold collapse_to Hv.
  destruct value; [reflexivity | reflexivity | discriminate].
Qed.

(** X18: when a list, tuple or dict has more entries than the threshold and
    0 <= collapse_to <= threshold, exactly collapse_to entries stand before
    the expander and hidden_values is the number of entries after it, which
    is positive; when it has no more entries than the threshold nothing is
    hidden and all entries stand before. *)
Theorem render_values_hidden_count :
  forall (A : Type) (dict_order : list (dkey * A) -> list (dkey * A))
         (value : rv_input A) (threshold collapse_to : Z),
    is_other A value = false ->
    let n := Z.of_nat (List.length (input_items A dict_order value)) in
    let context := render_values A dict_order value threshold collapse_to in
    (threshold < n -> 0 <= collapse_to <= threshold ->
     exists before after : list (dkey * A),
       ctx_value_before_expand A context = Some before /\
       ctx_value_after_expand A context = Some after /\
       Z.of_nat (List.length before) = collapse_to /\
       ctx_hidden_values A context = Some (Z.of_nat (List.length after)) /\
       0 < Z.of_nat (List.length after)) /\
    (n <= threshold ->
     ctx_over_threshold A context = Some false /\
     ctx_hidden_values A context = Some 0 /\
     ctx_value_after_expand A context = Some [] /\
     ctx_value_before_expand A context
     = Some (sorted_items A (input_items A dict_order value))).
Proof.
  intros A dict_order value threshold collapse_to Hv n context.
  subst context. rewrite (render_values_shape A dict_order value _ _ Hv).
  cbv zeta.
  assert (Hlen : Z.of_nat (List.length (sorted_items A (input_items A dict_order value)))
                 = n).
  { subst n. rewrite (Permutation_length (sorted_items_perm A _)). reflexivity. }
  rewrite Hlen. split.
  - intros Hover Hc.
    destruct (Z.ltb_spec threshold n); [| lia].
    cbn [ctx_value_before_expand ctx_value_after_expand ctx_hidden_values].
    eexists. eexists. split; [reflexivity |]. split; [reflexivity |].
    unfold list_slice_to, list_slice_from, slice_bound. rewrite Hlen.
    destruct (Z.ltb_spec collapse_to 0); [lia |].
    replace (Z.max 0 (Z.min n collapse_to)) with collapse_to by lia.
    rewrite length_firstn, length_skipn.
    assert (Hn : List.length (sorted_items A (input_items A dict_order value))
                 = Z.to_nat n) by lia.
    rewrite Hn. split; [lia |]. split; [f_equal; lia | lia].
  - intros Hunder.
    destruct (Z.ltb_spec threshold n); [lia |].
    cbn [ctx_over_threshold ctx_value_before_expand ctx_value_after_expand
         ctx_hidden_values].
    repeat split.
Qed.

Lemma render_values_hidden_count_witness :
  is_other nat (RList [10; 20; 30; 40; 50; 60; 70]%nat) = false /\
  ctx_hidden_values nat
    (render_values nat (@rev _) (RList [10; 20; 30; 40; 50; 60; 70]%nat) 5 3)
  = Some 4.
Proof.
  split; [reflexivity |].
  destruct (proj1 (render_values_hidden_count nat (@rev _)
                     (RList [10; 20; 30; 40; 50; 60; 70]%nat) 5 3 eq_refl)
              ltac:(vm_compute; reflexivity) ltac:(lia))
    as (before & after & _).
  vm_compute. reflexivity.
Defined.

Lemma key_leb_int_total :
  forall (A : Type) (x y : dkey * A),
    is_int_key x -> is_int_key y -> key_leb (fst x) (fst y) = false -> key_le y x.
Proof.
  intros A x y [i Hx] [j Hy] H. unfold key_le. rewrite Hx, Hy in *.
  cbn [key_leb] in *. apply Z.leb_gt in H. apply Z.leb_le. lia.
Qed.

Lemma key_le_int_trans :
  forall (A : Type) (x y z : dkey * A),
    is_int_key x -> is_int_key y -> is_int_key z ->
    key_le x y -> key_le y z -> key_le x z.
Proof.
  intros A x y z [i Hx] [j Hy] [k Hz]. unfold key_le. rewrite Hx, Hy, Hz.
  cbn [key_leb]. rewrite !Z.leb_le. lia.
Qed.

Lemma insert_item_sorted :
  forall (A : Type) (x : dkey * A) l,
    is_int_key x -> Forall is_int_key l ->
    StronglySorted key_le l -> StronglySorted key_le (insert_item A x l).
Proof.
  intros A x l Hx. induction l as [| y l IH]; intros Hl Hs; cbn [insert_item].
  - constructor; constructor.
  - inversion Hl as [| ? ? Hy Hl']; subst.
    inversion Hs as [| ? ? Hs' Hall]; subst.
    destruct (key_leb (fst x) (fst y)) eqn:Hxy.
    + constructor; [exact Hs |]. constructor; [exact Hxy |].
      rewrite Forall_forall in *. intros z Hz.
      apply (key_le_int_trans A x y z); auto.
    + constructor; [apply IH; assumption |].
      apply (Permutation_Forall (Permutation_sym (insert_item_perm A x l))).
      constructor; [| exact Hall].
      apply key_leb_int_total; assumption.
Qed.

Lemma sorted_items_sorted :
  forall (A : Type) (l : list (dkey * A)),
    Forall is_int_key l -> StronglySorted key_le (sorted_items A l).
Proof.
  intros A. induction l as [| x l IH]; intros Hl; [constructor |].
  inversion Hl as [| ? ? Hx Hl']; subst.
  cbn [sorted_items fold_right]. fold (sorted_items A l).
  apply insert_item_sorted; [exact Hx | | apply IH; exact Hl'].
  apply (Permutation_Forall (Permutation_sym (sorted_items_perm A l))). exact Hl'.
Qed.

(** Two orderings of the same items, one by keys and one by strictly
    growing keys, are the same list. *)
Lemma sorted_unique :
  forall (A : Type) (l2 l1 : list (dkey * A)),
    StronglySorted key_le l1 -> StronglySorted key_lt l2 ->
    Permutation l1 l2 -> l1 = l2.
Proof.
  intros A. induction l2 as [| x l2 IH]; intros l1 H1 H2 Hp.
  - apply Permutation_sym, Permutation_nil in Hp. exact Hp.
  - destruct l1 as [| y l1].
    { apply Permutation_nil in Hp. discriminate. }
    inversion H1 as [| ? ? H1' Hle]; subst.
    inversion H2 as [| ? ? H2' Hlt]; subst.
    assert (Hy : In y (x :: l2)) by (apply (Permutation_in _ Hp); left; reflexivity).
    assert (Hx : In x (y :: l1))
      by (apply (Permutation_in _ (Permutation_sym Hp)); left; reflexivity).
    assert (Heq : y = x).
    { destruct Hy as [Hy | Hy]; [symmetry; exact Hy |].
      destruct Hx as [Hx | Hx]; [exact Hx |].
      rewrite Forall_forall in Hle, Hlt.
      specialize (Hle x Hx). specialize (Hlt y Hy).
      unfold key_le, key_lt in *. congruence. }
    subst y. f_equal. apply IH; [assumption | assumption |].
    apply Permutation_cons_inv with x. exact Hp.
Qed.

Lemma enumerate_from_keys :
  forall (A : Type) (l : list A) i,
    Forall is_int_key (enumerate_from A i l) /\
    Forall (fun x => exists j, fst x = KInt j /\ i <= j) (enumerate_from A i l) /\
    StronglySorted key_lt (enumerate_from A i l).
Proof.
  intros A. induction l as [| a l IH]; intros i; cbn [enumerate_from].
  - repeat constructor.
  - destruct (IH (i + 1)) as (Hint & Hlow & Hs).
    split; [constructor; [exists i; reflexivity | exact Hint] |].
    split.
    + constructor; [exists i; split; [reflexivity | lia] |].
      rewrite Forall_forall in *. intros x Hx.
      destruct (Hlow x Hx) as (j & Hj & Hij). exists j. split; [exact Hj | lia].
    + constructor; [exact Hs |].
      rewrite Forall_forall in *. intros x Hx.
      destruct (Hlow x Hx) as (j & Hj & Hij).
      unfold key_lt. rewrite Hj. cbn [fst key_leb]. apply Z.leb_gt. lia.
Qed.

(** X19: for a list or tuple, whatever order the intermediate dict iterates
    in, the entries handed to the template are the elements with their
    indexes 0, 1, 2, ... in the order of the list; is_dict is set, and
    is_list is set exactly when the list is not empty. *)
Theorem render_values_list_order :
  forall (A : Type) (dict_order : list (dkey * A) -> list (dkey * A))
         (l : list A) (threshold collapse_to : Z),
    Permutation (dict_order (enumerate_from A 0 l)) (enumerate_from A 0 l) ->
    let context := render_values A dict_order (RList l) threshold collapse_to in
    sorted_items A (input_items A dict_order (RList l)) = enumerate_from A 0 l /\
    ctx_is_dict A context = true /\
    ctx_is_list A context = match l with [] => false | _ => true end.
Proof.
  intros A dict_order l threshold collapse_to Hperm context.
  destruct (enumerate_from_keys A l 0) as (Hint & _ & Hs).
  split; [| split].
  - cbn [input_items]. apply sorted_unique.
    + apply sorted_items_sorted.
      apply (Permutation_Forall (Permutation_sym Hperm)). exact Hint.
    + exact Hs.
    + rewrite sorted_items_perm. exact Hperm.
  - subst context. rewrite render_values_shape by reflexivity. cbv zeta.
    destruct (threshold <? _); reflexivity.
  - subst context. rewrite render_values_shape by reflexivity. cbv zeta.
    assert (His : match input_items A dict_order (RList l) with
                  | [] => false
                  | _ => true
                  end = match l with [] => false | _ => true end).
    { cbn [input_items]. pose proof (Permutation_length Hperm) as Hlen.
      destruct l as [| a l]; cbn [enumerate_from] in *.
      - destruct (dict_order []); [reflexivity | discriminate].
      - destruct (dict_order _); [discriminate | reflexivity]. }
    destruct (threshold <? _); cbn [ctx_is_list]; exact His.
Qed.

Lemma render_values_list_order_witness :
  Permutation (rev (enumerate_from string 0 ["x"; "y"; "z"]%string))
    (enumerate_from string 0 ["x"; "y"; "z"]%string) /\
  sorted_items string (input_items string (@rev _) (RList ["x"; "y"; "z"]%string))
  = [(KInt 0, "x"); (KInt 1, "y"); (KInt 2, "z")]%string.
Proof.
  split; [apply Permutation_sym, Permutation_rev |].
  apply (render_values_list_order string (@rev _) ["x"; "y"; "z"]%string 5 3).
  apply Permutation_sym, Permutation_rev.
Defined.

(** ** get_rendered_interfaces *)

Section InterfacesFacts.

Variable interface : Type.
Variable to_html : interface -> bool -> option string.
Variable get_display_score : interface -> Z.

Local Abbreviation insert := (insert_by_score interface get_display_score).
Local Abbreviation sorted := (sorted_by_score interface get_display_score).
Local Abbreviation ge := (score_ge interface get_display_score).

Lemma insert_by_score_perm :
  forall x l, Permutation (insert x l) (x :: l).
Proof.
  intros x. induction l as [| y l IH]; cbn [insert_by_score]; [reflexivity |].
  destruct (get_display_score (fst y) <=? get_display_score (fst x));
    [reflexivity |].
  rewrite IH. apply perm_swap.
Qed.

Lemma sorted_by_score_perm :
  forall l, Permutation (sorted l) l.
Proof.
  induction l as [| x l IH]; [reflexivity |].
  cbn [sorted_by_score fold_right]. fold (sorted l).
  rewrite insert_by_score_perm, IH. reflexivity.
Qed.

Lemma insert_by_score_sorted :
  forall x l, StronglySorted ge l -> StronglySorted ge (insert x l).
Proof.
  intros x. induction l as [| y l IH]; intros Hs; cbn [insert_by_score].
  - constructor; constructor.
  - inversion Hs as [| ? ? Hs' Hall]; subst.
    destruct (Z.leb_spec (get_display_score (fst y)) (get_display_score (fst x)))
      as [Hle | Hgt].
    + constructor; [exact Hs |]. constructor; [exact Hle |].
      rewrite Forall_forall in *. intros z Hz. specialize (Hall z Hz).
      unfold score_ge in *. lia.
    + constructor; [apply IH; exact Hs' |].
      apply (Permutation_Forall (Permutation_sym (insert_by_score_perm x l))).
      constructor; [unfold score_ge; lia | exact Hall].
Qed.

Lemma sorted_by_score_sorted :
  forall l, StronglySorted ge (sorted l).
Proof.
  induction l as [| x l IH]; [constructor |].
  cbn [sorted_by_score fold_right]. fold (sorted l).
  apply insert_by_score_sorted. exact IH.
Qed.

Lemma rendered_list_in :
  forall is_public interfaces i html,
    In (i, html) (rendered_list interface to_html is_public interfaces) ->
    In i interfaces /\ to_html i is_public = Some html /\ html <> EmptyString.
Proof.
  intros is_public. induction interfaces as [| j rest IH]; intros i html Hin;
    cbn [rendered_list] in Hin; [contradiction |].
  destruct (to_html j is_public) as [h |] eqn:Hj.
  - destruct h as [| c h'].
    + destruct (IH i html Hin) as (H1 & H2 & H3). auto using in_cons.
    + destruct Hin as [Heq | Hin].
      * unfold mark_safe in Heq. injection Heq as <- <-.
        split; [left; reflexivity |]. split; [exact Hj | discriminate].
      * destruct (IH i html Hin) as (H1 & H2 & H3). auto using in_cons.
  - destruct (IH i html Hin) as (H1 & H2 & H3). auto using in_cons.
Qed.

Lemma insert_by_score_with_score :
  forall s x l,
    StronglySorted ge l ->
    with_score interface get_display_score s (insert x l)
    = with_score interface get_display_score s (x :: l).
Proof.
  intros s x. induction l as [| y l IH]; intros Hs; [reflexivity |].
  cbn [insert_by_score].
  destruct (Z.leb_spec (get_display_score (fst y)) (get_display_score (fst x)))
    as [Hle | Hgt]; [reflexivity |].
  inversion Hs as [| ? ? Hs' Hall]; subst.
  unfold with_score in *. cbn [filter]. rewrite (IH Hs'). cbn [filter].
  destruct (Z.eqb_spec (get_display_score (fst y)) s) as [Hy | Hy];
    destruct (Z.eqb_spec (get_display_score (fst x)) s) as [Hx | Hx];
    try reflexivity.
  lia.
Qed.

Lemma sorted_by_score_with_score :
  forall s l,
    with_score interface get_display_score s (sorted l)
    = with_score interface get_display_score s l.
Proof.
  intros s. induction l as [| x l IH]; [reflexivity |].
  cbn [sorted_by_score fold_right]. fold (sorted l).
  rewrite insert_by_score_with_score by apply sorted_by_score_sorted.
  unfold with_score in *. cbn [filter]. rewrite IH. reflexivity.
Qed.

End InterfacesFacts.

(** X20: the rendered interfaces come highest display score first; every
    one of them is an interface of the event whose HTML was produced and is
    not empty, and the interfaces with no HTML, an empty one or a failed
    rendering are the only ones left out. *)
Theorem get_rendered_interfaces_sorted :
  forall (interface : Type) (to_html : interface -> bool -> option string)
         (get_display_score : interface -> Z)
         (interfaces : list interface) (is_public : bool),
    let result :=
      get_rendered_interfaces interface to_html get_display_score interfaces is_public in
    StronglySorted (score_ge interface get_display_score) result /\
    Permutation result (rendered_list interface to_html is_public interfaces) /\
    (forall i html, In (i, html) result ->
       In i interfaces /\ to_html i is_public = Some html /\ html <> EmptyString) /\
    (forall i html, In i interfaces -> to_html i is_public = Some html ->
       html <> EmptyString -> In (i, html) result).
Proof.
  intros interface to_html score interfaces is_public result. subst result.
  unfold get_rendered_interfaces.
  split; [apply sorted_by_score_sorted |].
  split; [apply sorted_by_score_perm |].
  split.
  - intros i html Hin. apply (rendered_list_in interface to_html is_public).
    apply (Permutation_in _ (sorted_by_score_perm interface score _)). exact Hin.
  - intros i html Hin Hhtml Hne.
    apply (Permutation_in _ (Permutation_sym (sorted_by_score_perm interface score _))).
    induction interfaces as [| j rest IH]; [contradiction |].
    cbn [rendered_list]. destruct Hin as [-> | Hin].
    + rewrite Hhtml. destruct html; [congruence | left; reflexivity].
    + destruct (to_html j is_public) as [[| c h] |]; auto using in_cons.
Qed.

(** X21: the sort of the rendered interfaces is stable: the interfaces of
    one and the same display score stay in the order in which the event
    lists them. *)
Theorem get_rendered_interfaces_stable :
  forall (interface : Type) (to_html : interface -> bool -> option string)
         (get_display_score : interface -> Z)
         (interfaces : list interface) (is_public : bool) (s : Z),
    with_score interface get_display_score s
      (get_rendered_interfaces interface to_html get_display_score interfaces is_public)
    = with_score interface get_display_score s
        (rendered_list interface to_html is_public interfaces).
Proof.
  intros. unfold get_rendered_interfaces. apply sorted_by_score_with_score.
Qed.

(** ** get_project_dsn *)

(** X22: for an authenticated user the tag never consults the user's own
    key: indexing the empty queryset raises IndexError, which the handler
    for DoesNotExist does not catch, so a project without a shared key makes
    the tag raise IndexError, and otherwise the DSN of the first shared key
    is stored; an anonymous user gets None stored.  In every case that
    returns, the tag returns the empty string. *)
Theorem get_project_dsn_shared_key_only :
  forall (project_key : Type) (get_dsn : project_key -> string)
         (shared_keys : list project_key) (user_key : outcome project_key)
         (c : context) (asvar : string),
    get_project_dsn project_key get_dsn shared_keys user_key c false asvar
    = Returned (EmptyString, context_set asvar None c) /\
    get_project_dsn project_key get_dsn shared_keys user_key c true asvar
    = match shared_keys with
      | key :: _ => Returned (EmptyString, context_set asvar (Some (get_dsn key)) c)
      | [] => Raised IndexError
      end /\
    (forall other_user_key : outcome project_key,
        get_project_dsn project_key get_dsn shared_keys other_user_key c true asvar
        = get_project_dsn project_key get_dsn shared_keys user_key c true asvar).
Proof.
  intros. unfold get_project_dsn.
  split; [reflexivity |].
  split; [destruct shared_keys; reflexivity |].
  intros other. destruct shared_keys; reflexivity.
Qed.

(** ** as_bookmarks and with_metadata *)

(** X23: both filters yield every group of the list once, in order; for an
    anonymous user no group is flagged; with_metadata flags exactly the
    groups as_bookmarks flags for the request's user, and its
    historical_data is always the empty string. *)
Theorem with_metadata_agrees :
  forall (group project user : Type) (pk : group -> Z)
         (project_of : group -> project) (is_authenticated : user -> bool)
         (bookmarked_ids : project -> user -> list group -> list Z)
         (group_list : list group) (u : user),
    let flags :=
      as_bookmarks group project user pk project_of is_authenticated
        bookmarked_ids group_list u in
    let rows :=
      with_metadata group project user pk project_of is_authenticated
        bookmarked_ids group_list u in
    map fst flags = group_list /\
    map (fun row => (fst row, is_bookmarked (snd row))) rows = flags /\
    Forall (fun row => historical_data (snd row) = EmptyString) rows /\
    (is_authenticated u = false -> map snd flags = map (fun _ => false) group_list).
Proof.
  intros group project user pk project_of is_authenticated bookmarked_ids
         group_list u flags rows.
  subst flags rows. unfold as_bookmarks, with_metadata.
  split; [| split; [| split]].
  - rewrite map_map. cbn [fst]. apply map_id.
  - rewrite map_map. reflexivity.
  - apply Forall_forall. intros row Hrow. apply in_map_iff in Hrow.
    destruct Hrow as (g & <- & _). reflexivity.
  - intros Hanon. rewrite map_map. cbn [snd].
    unfold bookmark_set. destruct group_list as [| g gl]; [reflexivity |].
    rewrite Hanon. reflexivity.
Qed.

Lemma with_metadata_agrees_witness :
  map snd (as_bookmarks Z unit bool (fun g => g) (fun _ => tt) (fun u => u)
             (fun _ _ gl => gl) [3; 5] false)
  = [false; false].
Proof.
  apply (with_metadata_agrees Z unit bool (fun g => g) (fun _ => tt) (fun u => u)
           (fun _ _ gl => gl) [3; 5] false).
  reflexivity.
Defined.

(** ** titlize *)

Lemma title_char_again :
  forall p c, title_char p (fst (title_char p c)) = title_char p c.
Proof.
  intros [] [[] [] [] [] [] [] [] []]; vm_compute; reflexivity.
Qed.

Lemma title_char_underscore :
  forall p c, Ascii.eqb (fst (title_char p c)) "_" = Ascii.eqb c "_".
Proof.
  intros [] [[] [] [] [] [] [] [] []]; vm_compute; reflexivity.
Qed.

Lemma title_from_again :
  forall s p, title_from p (title_from p s) = title_from p s.
Proof.
  induction s as [| c s IH]; intros p; [reflexivity |].
  cbn [title_from].
  pose proof (title_char_again p c) as Hc.
  destruct (title_char p c) as [c' p'] eqn:E. cbn [fst] in Hc.
  cbn [title_from]. rewrite Hc, IH. reflexivity.
Qed.

Lemma title_from_underscore :
  forall s p, has_char "_" (title_from p s) = has_char "_" s.
Proof.
  induction s as [| c s IH]; intros p; [reflexivity |].
  cbn [title_from].
  pose proof (title_char_underscore p c) as Hc.
  destruct (title_char p c) as [c' p'] eqn:E. cbn [fst] in Hc.
  cbn [has_char]. rewrite Hc, IH. reflexivity.
Qed.

Lemma title_from_length :
  forall s p, String.length (title_from p s) = String.length s.
Proof.
  induction s as [| c s IH]; intros p; [reflexivity |].
  cbn [title_from]. destruct (title_char p c) as [c' p'].
  cbn [String.length]. rewrite IH. reflexivity.
Qed.

Lemma replace_underscore_gone :
  forall s, has_char "_" (replace_char "_" " " s) = false.
Proof.
  induction s as [| c s IH]; [reflexivity |].
  cbn [replace_char has_char]. rewrite IH, orb_false_r.
  destruct (Ascii.eqb_spec c "_") as [-> | Hne]; [reflexivity |].
  apply Ascii.eqb_neq. exact Hne.
Qed.

Lemma replace_char_length :
  forall old new s, String.length (replace_char old new s) = String.length s.
Proof.
  intros old new. induction s as [| c s IH]; [reflexivity |].
  cbn [replace_char String.length]. rewrite IH. reflexivity.
Qed.

(** X24: on ASCII text, titlize keeps the length, leaves no underscore and
    changes nothing when applied a second time; the title of the tag widget
    is the titlized tag name. *)
Theorem titlize_idempotent :
  forall value : string,
    is_ascii_text value = true ->
    titlize (titlize value) = titlize value /\
    String.length (titlize value) = String.length value /\
    has_char "_" (titlize value) = false /\
    (forall (G : Type) (group : G),
        widget_title G (render_tag_widget group value) = titlize value).
Proof.
  intros value _. unfold titlize, py_title.
  assert (Hgone : has_char "_" (title_from false (replace_char "_" " " value)) = false)
    by (rewrite title_from_underscore; apply replace_underscore_gone).
  split; [| split; [| split]].
  - rewrite (replace_char_absent "_" " " _ Hgone). apply title_from_again.
  - rewrite title_from_length, replace_char_length. reflexivity.
  - exact Hgone.
  - reflexivity.
Qed.

Lemma titlize_idempotent_witness :
  is_ascii_text "release_VERSION 2a" = true /\
  titlize "release_VERSION 2a" = "Release Version 2A"%string.
Proof.
  split; [reflexivity |].
  destruct (titlize_idempotent "release_VERSION 2a" eq_refl) as [_ _].
  vm_compute. reflexivity.
Defined.

(** ** trim_schema on any value *)

Lemma split_scan_length :
  forall sep s n skip,
    (List.length (split_scan sep (Some n) skip s) <= S n)%nat.
Proof.
  intros sep. induction s as [| c s IH]; intros n skip.
  - cbn [split_scan List.length]. lia.
  - destruct skip as [| k]; [| cbn [split_scan]; apply IH].
    cbn [split_scan].
    destruct (may_split (Some n) && starts_with sep (String c s)) eqn:Hm.
    + apply andb_true_iff in Hm. destruct Hm as [Hn _].
      destruct n as [| n']; [discriminate |].
      cbn [one_split_less List.length].
      specialize (IH n' (String.length sep - 1)%nat). lia.
    + specialize (IH n 0%nat).
      destruct (split_scan sep (Some n) 0 s) as [| p ps];
        cbn [List.length] in *; lia.
Qed.

(** X25: trim_schema returns the value itself or what follows a double
    slash in it: the value is then some text, the two slashes and the
    result. *)
Theorem trim_schema_suffix :
  forall value : string,
    trim_schema value = value \/
    exists before : string, value = (before ++ "//" ++ trim_schema value)%string.
Proof.
  intros value. unfold trim_schema.
  destruct (split_scan_join "//" (Some 1%nat) value 0%nat ltac:(discriminate))
    as [Hjoin Hne].
  pose proof (split_scan_length "//" value 1%nat 0%nat) as Hlen.
  cbn [drop] in Hjoin.
  destruct (split_scan "//" (Some 1%nat) 0 value) as [| a [| b [| c rest]]];
    [congruence | | | cbn [List.length] in Hlen; lia].
  - left. cbn [String.concat last] in *. exact Hjoin.
  - right. exists a. cbn [String.concat last] in *. symmetry. exact Hjoin.
Qed.

(** ** duration on whole minutes and hours *)

(** X26: from 2 to 60 whole minutes the duration is the number of minutes
    and "m", and from 2 to 1000 whole hours the number of hours and "h";
    the tests being strict, exactly one minute is written "60.00s" and
    exactly one hour "60m". *)
Theorem duration_whole_units :
  (forall m : Z, 2 <= m <= 60 ->
     duration (NInt (60000 * m)) = Ok (str_of_int m ++ "m")%string) /\
  (forall h : Z, 2 <= h <= 1000 ->
     duration (NInt (3600000 * h)) = Ok (str_of_int h ++ "h")%string) /\
  duration (NInt 60000) = Ok "60.00s"%string /\
  duration (NInt 3600000) = Ok "60m"%string.
Proof.
  split; [| split; [| split; vm_compute; reflexivity]].
  - intros m Hm.
    assert (H : duration_is_minutes m = true).
    { apply (forallb_range duration_is_minutes 59 2); [vm_compute; reflexivity | lia]. }
    unfold duration_is_minutes in H.
    destruct (duration (NInt (60000 * m))) as [s |]; [| discriminate].
    apply String.eqb_eq in H. rewrite H. reflexivity.
  - intros h Hh.
    assert (H : duration_is_hours h = true).
    { apply (forallb_range duration_is_hours 999 2); [vm_compute; reflexivity | lia]. }
    unfold duration_is_hours in H.
    destruct (duration (NInt (3600000 * h))) as [s |]; [| discriminate].
    apply String.eqb_eq in H. rewrite H. reflexivity.
Qed.

Lemma duration_whole_units_witness :
  2 <= 45 <= 60 /\ duration (NInt (60000 * 45)) = Ok "45m"%string.
Proof.
  split; [lia | apply (proj1 duration_whole_units 45); lia].
Defined.

(** ** Worked instances *)

Lemma get_rendered_interfaces_sorted_witness :
  In (4, "ok"%string)
    (get_rendered_interfaces Z
       (fun i _ => if Z.even i then Some "ok"%string else None)
       (fun i => i) [1; 2; 3; 4] true) /\
  In 4 [1; 2; 3; 4].
Proof.
  assert (Hin : In (4, "ok"%string)
                  (get_rendered_interfaces Z
                     (fun i _ => if Z.even i then Some "ok"%string else None)
                     (fun i => i) [1; 2; 3; 4] true))
    by (vm_compute; left; reflexivity).
  split; [exact Hin |].
  apply (proj1 (proj2 (proj2 (get_rendered_interfaces_sorted Z
           (fun i _ => if Z.even i then Some "ok"%string else None)
           (fun i => i) [1; 2; 3; 4] true))) 4 "ok"%string Hin).
Defined.
